(** * structural_context: main/side branch counts and glycoletter contexts

    A shallow embedding of [structural_context.py] (glycobase) and the
    properties of its two entry points, [main_v_side_branch] and
    [characterize_context].

    Python values are modelled as follows.
    - [str] is [string]; [a in b] on strings is [py_in]; [s[a:b]] with
      non-negative bounds is [py_slice]; [s.split('*')] is [split_star].
    - Python integers are unbounded; the counters only ever count up from 0,
      so they are [nat].
    - A raised exception ends the call: the functions return [result].
    - [df_species] is a list of rows in table order.  Its taxonomy cells are
      text or missing values, and [str(k)] is [py_str].
    - [link_find] (module glycan_processing_helpers) and the matcher behind
      [re.finditer] are not defined by the module: they are the fields of
      the class [Imports]. *)

From Stdlib Require Import String Ascii List Arith Bool Lia Permutation Sorted.
Import ListNotations.
Open Scope string_scope.

(** ** Exceptions and results *)

(** The exceptions the two functions can meet.  [ValueError] is Python's
    invalid-argument error; no line of the module raises it. *)
Inductive exception : Type :=
| re_error            (* re rejects a malformed pattern *)
| OverflowError       (* re rejects a repeat count that is too large *)
| RecursionError      (* re gives up on a pattern nested too deep *)
| IndexError          (* list index out of range *)
| UnboundLocalError   (* local variable read before assignment *)
| ValueError.

Inductive result (A : Type) : Type :=
| Ok (a : A)
| Raise (e : exception).
Arguments Ok {A} a.
Arguments Raise {A} e.

Definition bind {A B : Type} (r : result A) (k : A -> result B) : result B :=
  match r with
  | Ok a => k a
  | Raise e => Raise e
  end.

Notation "x <- r ;; k" := (bind r (fun x => k))
  (at level 61, r at next level, right associativity).
Notation "' p <- r ;; k" := (bind r (fun x => match x with p => k end))
  (at level 61, p pattern, r at next level, right associativity).

Definition result_map {A B : Type} (f : A -> B) (r : result A) : result B :=
  x <- r ;; Ok (f x).

(** ** Python string primitives *)

(** [sub in s]: [sub] occurs in [s] as a contiguous run of characters. *)
Fixpoint py_in (sub s : string) : bool :=
  prefix sub s ||
  match s with
  | EmptyString => false
  | String _ s' => py_in sub s'
  end.

(** [s[a:b]] for [0 <= a] and [0 <= b]: empty when [b <= a], clamped to the
    end of [s]. *)
Definition py_slice (s : string) (a b : nat) : string :=
  substring a (b - a) s.

(** [s.split('*')]: always at least one field. *)
Fixpoint split_star (s : string) : list string :=
  match s with
  | EmptyString => [EmptyString]
  | String c s' =>
      if Ascii.eqb c "*"%char then EmptyString :: split_star s'
      else match split_star s' with
           | h :: t => String c h :: t
           | [] => [String c EmptyString]
           end
  end.

(** [l[i]] for [0 <= i]. *)
Definition py_index {A : Type} (l : list A) (i : nat) : result A :=
  match nth_error l i with
  | Some x => Ok x
  | None => Raise IndexError
  end.

(** ** The reference table *)

(** A taxonomy cell of the table: text, or one of the two missing-value
    markers pandas leaves in an object column. *)
Inductive cell : Type :=
| Text (s : string)
| NaN
| PyNone.

(** [str(k)] *)
Definition py_str (k : cell) : string :=
  match k with
  | Text s => s
  | NaN => "nan"
  | PyNone => "None"
  end.

Record row : Type := mkRow {
  glycan : string;
  species : cell;
  kingdom : cell
}.

(** [df[mask]]: boolean indexing with a mask aligned to the rows. *)
Fixpoint mask_select {A : Type} (mask : list bool) (rows : list A) : list A :=
  match mask, rows with
  | b :: mask', r :: rows' =>
      if b then r :: mask_select mask' rows' else mask_select mask' rows'
  | _, _ => []
  end.

(** What the module imports and does not define: the reference table and
    [link_find] from glycan_processing_helpers, and the regular-expression
    matcher of [re].  [re_valid p] tells whether [p] compiles;
    [re_starts p s] lists [m.start()] for the matches [re.finditer(p, s)]
    yields, in the order it yields them; [re_raises p] is the exception
    that compiling [p] raises when [p] does not compile. *)
Class Imports : Type := {
  df_species : list row;
  link_find : string -> list string;
  re_valid : string -> bool;
  re_starts : string -> string -> list nat;
  re_raises : string -> exception
}.

(** ** The module *)

Section StructuralContext.
Context {I : Imports}.

(** Lines 11-21, and again 42-52: the two functions open with the same text. *)
Definition filter_df (taxonomy_filter taxonomy_value : string) : list row :=
  if taxonomy_value =? "All" then df_species
  else if taxonomy_filter =? "Kingdom" then
    let filter_list :=
      map (fun k => py_in taxonomy_value (py_str k)) (map kingdom df_species) in
    mask_select filter_list df_species
  else
    let filter_list :=
      map (fun k => py_in taxonomy_value (py_str k)) (map species df_species) in
    mask_select filter_list df_species.

(** [glycans_df.glycan.values.tolist()] *)
Definition glycan_values (glycans_df : list row) : list string :=
  map glycan glycans_df.

(** [[m.start() for m in re.finditer(pattern, s)]]: the pattern is compiled
    first, whatever the subject. *)
Definition finditer_starts (pattern s : string) : result (list nat) :=
  if re_valid pattern then Ok (re_starts pattern s)
  else Raise (re_raises pattern).

(** Lines 30-35, one turn of the inner loop on the glycan [g]; the state is
    [(main, side, init)]. *)
Definition inner_step (g : string) (st : nat * nat * nat) (i : nat)
  : nat * nat * nat :=
  let '(main, side, init) := st in
  let gly := py_slice g init i in
  if py_in "[" gly && negb (py_in "]" gly)
  then (main, S side, i)
  else (S main, side, i).

(** Lines 26-35. *)
Fixpoint outer_loop (glycoletter : string) (glycan_list : list string)
    (main side : nat) : result (nat * nat) :=
  match glycan_list with
  | [] => Ok (main, side)
  | g :: rest =>
      starts <- finditer_starts glycoletter g ;;
      let '(main', side', _) := fold_left (inner_step g) starts (main, side, 0) in
      outer_loop glycoletter rest main' side'
  end.

Definition main_v_side_branch
    (glycoletter taxonomy_filter taxonomy_value : string)
  : result (nat * nat) :=
  let glycans_df := filter_df taxonomy_filter taxonomy_value in
  let glycan_list := glycan_values glycans_df in
  outer_loop glycoletter glycan_list 0 0.

(** [[k.split('*')[part] for k in pool if k.split('*')[key] == glycoletter]]:
    the condition is evaluated first, the element only when it holds. *)
Fixpoint comprehension (glycoletter : string) (key part : nat)
    (pool : list string) : result (list string) :=
  match pool with
  | [] => Ok []
  | k :: pool' =>
      kf <- py_index (split_star k) key ;;
      if kf =? glycoletter then
        p <- py_index (split_star k) part ;;
        rest <- comprehension glycoletter key part pool' ;;
        Ok (p :: rest)
      else comprehension glycoletter key part pool'
  end.

(** [Counter]: a dict from element to count; a dict keeps its keys in the
    order of their first insertion, so it is an association list. *)
Fixpoint counter_add (x : string) (c : list (string * nat))
  : list (string * nat) :=
  match c with
  | [] => [(x, 1)]
  | (y, n) :: c' =>
      if y =? x then (y, S n) :: c' else (y, n) :: counter_add x c'
  end.

Definition Counter (pool : list string) : list (string * nat) :=
  fold_left (fun c x => counter_add x c) pool [].

(** [most_common()] is [sorted(items, key=itemgetter(1), reverse=True)].
    Python's sort is stable, also under [reverse=True]: entries with equal
    counts keep their order.  A stable sort has one possible result, which
    the insertion sort below computes. *)
Fixpoint insert_desc (x : string * nat) (l : list (string * nat))
  : list (string * nat) :=
  match l with
  | [] => [x]
  | y :: l' =>
      if (snd x <? snd y)%nat then y :: insert_desc x l' else x :: l
  end.

Fixpoint most_common (items : list (string * nat)) : list (string * nat) :=
  match items with
  | [] => []
  | x :: items' => insert_desc x (most_common items')
  end.

(** Lines 54-71.  [lab] is a local that only the three branches assign:
    [None] is the unbound local. *)
Definition characterize_context
    (glycoletter mode taxonomy_filter taxonomy_value : string)
  : result (string * list string * list nat) :=
  let glycans_df := filter_df taxonomy_filter taxonomy_value in
  let pool := map link_find (glycan_values glycans_df) in
  let pool := concat pool in
  '(pool, lab) <-
    (if mode =? "bond" then
       pool' <- comprehension glycoletter 1 0 pool ;;
       Ok (pool', Some ("Observed monosaccharides making bond " ++ glycoletter))
     else if mode =? "sugar" then
       pool' <- comprehension glycoletter 0 2 pool ;;
       Ok (pool', Some ("Observed monosaccharides paired with " ++ glycoletter))
     else if mode =? "sugarbond" then
       pool' <- comprehension glycoletter 0 1 pool ;;
       Ok (pool', Some ("Observed bonds made by " ++ glycoletter))
     else Ok (pool, None)) ;;
  let cou := most_common (Counter pool) in
  let cou_k := map fst (filter (fun k => (10 <? snd k)%nat) cou) in
  let cou_v := map snd (filter (fun k => (10 <? snd k)%nat) cou) in
  lab <- match lab with
         | Some lab => Ok lab
         | None => Raise UnboundLocalError
         end ;;
  let lab := lab ++ " (" ++ taxonomy_filter ++ " = " ++ taxonomy_value ++ ")" in
  Ok (lab, cou_k, cou_v).

End StructuralContext.

(** ** Notions the properties are stated with *)

(** [v] occurs in [s]: some text, then [v] character for character, then
    some text. *)
Definition occurs_in (v s : string) : Prop :=
  exists pre post, s = pre ++ v ++ post.

(** [l'] holds exactly the elements of [l] that satisfy [P], in the order
    of [l]. *)
Inductive selects {A : Type} (P : A -> Prop) : list A -> list A -> Prop :=
| selects_nil : selects P [] []
| selects_keep x l l' : P x -> selects P l l' -> selects P (x :: l) (x :: l')
| selects_skip x l l' : ~ P x -> selects P l l' -> selects P (x :: l) l'.

(** The column a taxonomy filter reads. *)
Definition taxonomy_column (taxonomy_filter : string) (r : row) : cell :=
  if taxonomy_filter =? "Kingdom" then kingdom r else species r.

(** The text between two cursor positions holds an opening bracket and no
    closing one. *)
Definition open_bracket_only (gly : string) : bool :=
  py_in "[" gly && negb (py_in "]" gly).

(** The text scanned for occurrence number [j] (counted from 0) of a glycan
    whose occurrences start at [starts]: from the start of occurrence [j - 1]
    to the start of occurrence [j]; for the first occurrence, from the
    cursor [init]. *)
Definition window_from (init : nat) (g : string) (starts : list nat) (j : nat)
  : string :=
  py_slice g
    match j with
    | 0 => init
    | S j' => nth j' starts 0
    end
    (nth j starts 0).

Definition side_from (init : nat) (g : string) (starts : list nat) : nat :=
  length (filter (fun j => open_bracket_only (window_from init g starts j))
                 (seq 0 (length starts))).

Definition main_from (init : nat) (g : string) (starts : list nat) : nat :=
  length (filter (fun j => negb (open_bracket_only (window_from init g starts j)))
                 (seq 0 (length starts))).

(** The loop starts each glycan with the cursor at the start of the string. *)
Definition window : string -> list nat -> nat -> string := window_from 0.
Definition side_occurrences : string -> list nat -> nat := side_from 0.
Definition main_occurrences : string -> list nat -> nat := main_from 0.

(** Field number [i] of a token, counted from 0. *)
Definition field (i : nat) (t : string) : string :=
  nth i (split_star t) "".

(** A token of the form sugar*bond*sugar has three fields. *)
Definition bond_triple (t : string) : Prop :=
  3 <= length (split_star t).

(** The table of modes: key field, partner field, label text. *)
Definition mode_table (mode : string) : option (nat * nat * string) :=
  if mode =? "bond" then
    Some (1, 0, "Observed monosaccharides making bond ")
  else if mode =? "sugar" then
    Some (0, 2, "Observed monosaccharides paired with ")
  else if mode =? "sugarbond" then
    Some (0, 1, "Observed bonds made by ")
  else None.

Definition recognized (mode : string) : Prop :=
  mode = "bond" \/ mode = "sugar" \/ mode = "sugarbond".

Definition label_suffix (taxonomy_filter taxonomy_value : string) : string :=
  " (" ++ taxonomy_filter ++ " = " ++ taxonomy_value ++ ")".

(** The partner fields of the tokens whose key field is [glycoletter]. *)
Definition partner_pool (glycoletter : string) (key part : nat)
    (pool : list string) : list string :=
  map (field part) (filter (fun t => field key t =? glycoletter) pool).

(** How many tokens of the pool have key field [glycoletter] and partner
    field [p]. *)
Definition tally (glycoletter : string) (key part : nat)
    (pool : list string) (p : string) : nat :=
  length (filter (fun t => (field key t =? glycoletter) && (field part t =? p))
                 pool).

(** Position of the first [p] in [l]; [length l] when there is none. *)
Fixpoint first_index (p : string) (l : list string) : nat :=
  match l with
  | [] => 0
  | x :: l' => if x =? p then 0 else S (first_index p l')
  end.

(** The order [sorted] leaves entries in when they came ordered by [R]: a
    larger count first, and [R] among equal counts. *)
Definition count_then (R : string * nat -> string * nat -> Prop)
    (a b : string * nat) : Prop :=
  snd b < snd a \/ (snd a = snd b /\ R a b).

(** Lines 65-67 on a pool of partners: the entries kept, with their counts. *)
Definition frequent (pool : list string) : list (string * nat) :=
  filter (fun k => (10 <? snd k)%nat) (most_common (Counter pool)).

Definition drop_label (r : string * list string * list nat)
  : list string * list nat :=
  let '(_, cou_k, cou_v) := r in (cou_k, cou_v).

Section Notions.
Context {I : Imports}.

(** The flattened pool of tokens of the filtered glycans (lines 54-55). *)
Definition pool_of (taxonomy_filter taxonomy_value : string) : list string :=
  concat (map link_find (glycan_values (filter_df taxonomy_filter taxonomy_value))).

(** The filter keeps every record of the table. *)
Definition matches_every_record (taxonomy_filter taxonomy_value : string) : Prop :=
  Forall (fun r => py_in taxonomy_value
                     (py_str (taxonomy_column taxonomy_filter r)) = true)
         df_species.

End Notions.

(** ** A small table to run the module on *)

(** Left-to-right search for the non-overlapping occurrences of a literal
    text [p]; [skip] characters of the last occurrence remain to be passed. *)
Fixpoint literal_scan (p s : string) (pos skip : nat) : list nat :=
  match s with
  | EmptyString => if (skip =? 0)%nat && prefix p s then [pos] else []
  | String _ s' =>
      if (skip =? 0)%nat && prefix p s
      then pos :: literal_scan p s' (S pos) (String.length p - 1)
      else literal_scan p s' (S pos) (skip - 1)
  end.

Definition metacharacter (c : ascii) : bool :=
  existsb (Ascii.eqb c)
    ["."; "^"; "$"; "*"; "+"; "?"; "{"; "}"; "["; "("; ")"; "|"; "\"]%char.

(** On a pattern without metacharacters [re.finditer] is this literal
    search.  The instance refuses every other pattern with [re.error]; [re]
    would read some of them as operators and reject the others. *)
Definition literal_valid (p : string) : bool :=
  forallb (fun c => negb (metacharacter c)) (list_ascii_of_string p).

Definition lewis_x : row :=
  mkRow "Gal(b1-4)[Fuc(a1-3)]GlcNAc" (Text "Homo sapiens") (Text "Animalia").

Definition mannan : row :=
  mkRow "Man(a1-2)Man(a1-3)[Man(a1-6)]Man" (Text "Saccharomyces cerevisiae")
        (Text "Fungi").

Definition unplaced : row :=
  mkRow "Glc(b1-3)Glc" NaN NaN.

Definition demo_link_find (g : string) : list string :=
  if g =? "Gal(b1-4)[Fuc(a1-3)]GlcNAc" then
    ["Gal*b1-4*GlcNAc"; "Fuc*a1-3*GlcNAc"]
  else if g =? "Man(a1-2)Man(a1-3)[Man(a1-6)]Man" then
    ["Man*a1-2*Man"; "Man*a1-3*Man"; "Man*a1-6*Man"]
  else if g =? "Glc(b1-3)Glc" then
    ["Glc*b1-3*Glc"]
  else [].

Definition demo_table (rows : list row) : Imports :=
  {| df_species := rows;
     link_find := demo_link_find;
     re_valid := literal_valid;
     re_starts := fun p s => literal_scan p s 0 0;
     re_raises := fun _ => re_error |}.

(** Twelve records of one glycan, then two others. *)
Definition demo : Imports :=
  demo_table (repeat lewis_x 12 ++ [mannan; unplaced])%list.

Definition small : Imports :=
  demo_table [lewis_x; mannan; unplaced].

(** Eleven records of one glycan, then twelve of another. *)
Definition ranked : Imports :=
  demo_table (repeat mannan 11 ++ repeat lewis_x 12)%list.

(** A table of one kingdom. *)
Definition animals : Imports :=
  demo_table (repeat lewis_x 12).

(** ** Notions for the further properties *)

(** The subscripts of lines 57-63 are in range on the token [t]: the key
    field exists, and so does the partner field when the key field is the
    glycoletter. *)
Definition subscripts_in_range (glycoletter : string) (key part : nat)
    (t : string) : bool :=
  (key <? length (split_star t))%nat &&
  (negb (field key t =? glycoletter) || (part <? length (split_star t))%nat).

(** Number of characters [c] in [s]. *)
Fixpoint count_char (c : ascii) (s : string) : nat :=
  match s with
  | EmptyString => 0
  | String d s' => (if Ascii.eqb d c then 1 else 0) + count_char c s'
  end.

(** [s] without its first [n] characters. *)
Fixpoint string_skip (n : nat) (s : string) : string :=
  match n, s with
  | 0, _ => s
  | S n', String _ s' => string_skip n' s'
  | S _, EmptyString => EmptyString
  end.

(** The same imports with another reference table. *)
Definition with_table (I : Imports) (rows : list row) : Imports :=
  {| df_species := rows;
     link_find := @link_find I;
     re_valid := @re_valid I;
     re_starts := @re_starts I;
     re_raises := @re_raises I |}.

(** A table whose helper hands out a token of two fields. *)
Definition ragged : Imports :=
  {| df_species := [lewis_x];
     link_find := fun _ => ["Gal*b1-4*GlcNAc"; "Fuc*a1-3"];
     re_valid := literal_valid;
     re_starts := fun p s => literal_scan p s 0 0;
     re_raises := fun _ => re_error |}.

(** ** Strings *)

Lemma prefix_app (p post : string) : prefix p (p ++ post) = true.
Proof.
  induction p as [|c p IH]; simpl.
  - now destruct post.
  - destruct (ascii_dec c c) as [_|N]; [exact IH | now elim N].
Qed.

Lemma prefix_split (p s : string) :
  prefix p s = true -> exists post, s = p ++ post.
Proof.
  revert s; induction p as [|c p IH]; intros s H.
  - now exists s.
  - destruct s as [|d s]; simpl in H; [discriminate|].
    destruct (ascii_dec c d) as [->|_]; [|discriminate].
    destruct (IH s H) as [post ->]. now exists post.
Qed.

Lemma py_in_occurs (v s : string) : py_in v s = true <-> occurs_in v s.
Proof.
  split.
  - induction s as [|c s IH]; cbn [py_in]; intros H.
    + rewrite orb_false_r in H. destruct (prefix_split _ _ H) as [post E].
      now exists "", post.
    + apply orb_true_iff in H as [H|H].
      * destruct (prefix_split _ _ H) as [post E]. now exists "", post.
      * destruct (IH H) as (pre & post & ->). now exists (String c pre), post.
  - intros (pre & post & ->). induction pre as [|c pre IH].
    + change ("" ++ v ++ post) with (v ++ post).
      destruct (v ++ post) as [|c r] eqn:E; cbn [py_in];
        rewrite <- E, prefix_app; reflexivity.
    + change (String c pre ++ v ++ post) with (String c (pre ++ v ++ post)).
      cbn [py_in]. rewrite IH. apply orb_true_r.
Qed.

(** ** The taxonomic filter *)

Lemma selects_ext {A : Type} (P Q : A -> Prop) (l l' : list A) :
  (forall x, P x <-> Q x) -> selects P l l' -> selects Q l l'.
Proof.
  intros E H; induction H.
  - constructor.
  - apply selects_keep; [now apply E | assumption].
  - apply selects_skip; [now rewrite <- E | assumption].
Qed.

Lemma mask_select_selects {A : Type} (f : A -> bool) (l : list A) :
  selects (fun x => f x = true) l (mask_select (map f l) l).
Proof.
  induction l as [|x l IH]; simpl.
  - constructor.
  - destruct (f x) eqn:E.
    + now apply selects_keep.
    + apply selects_skip; [congruence | assumption].
Qed.

Lemma mask_select_all {A : Type} (f : A -> bool) (l : list A) :
  Forall (fun x => f x = true) l -> mask_select (map f l) l = l.
Proof.
  induction 1 as [|x l Hx _ IH]; simpl; [reflexivity|].
  now rewrite Hx, IH.
Qed.

Lemma selects_none {A : Type} (P : A -> Prop) (l l' : list A) :
  selects P l l' -> (forall x, In x l -> ~ P x) -> l' = [].
Proof.
  induction 1 as [|x l l' Px _ _|x l l' _ _ IH]; intros N.
  - reflexivity.
  - exfalso. apply (N x); [now left | assumption].
  - apply IH. intros y Hy. apply N. now right.
Qed.

Section FilterFacts.
Context {I : Imports}.

Lemma filter_df_All (taxonomy_filter : string) :
  filter_df taxonomy_filter "All" = df_species.
Proof. reflexivity. Qed.

Lemma filter_df_column (taxonomy_filter taxonomy_value : string) :
  taxonomy_value <> "All" ->
  filter_df taxonomy_filter taxonomy_value =
  mask_select
    (map (fun r => py_in taxonomy_value
                     (py_str (taxonomy_column taxonomy_filter r))) df_species)
    df_species.
Proof.
  intros N. unfold filter_df, taxonomy_column.
  destruct (String.eqb_spec taxonomy_value "All") as [E|_]; [contradiction|].
  destruct (taxonomy_filter =? "Kingdom"); cbv zeta; now rewrite map_map.
Qed.

Lemma filter_df_selects (taxonomy_filter taxonomy_value : string) :
  taxonomy_value <> "All" ->
  selects (fun r => occurs_in taxonomy_value
                      (py_str (taxonomy_column taxonomy_filter r)))
          df_species (filter_df taxonomy_filter taxonomy_value).
Proof.
  intros N. rewrite (filter_df_column _ _ N).
  eapply selects_ext; [|apply mask_select_selects].
  intros r. apply py_in_occurs.
Qed.

Lemma filter_df_matches_every (taxonomy_filter taxonomy_value : string) :
  matches_every_record taxonomy_filter taxonomy_value ->
  filter_df taxonomy_filter taxonomy_value = df_species.
Proof.
  intros H. destruct (String.eqb_spec taxonomy_value "All") as [->|N].
  - apply filter_df_All.
  - rewrite (filter_df_column _ _ N). now apply mask_select_all.
Qed.

(** C3. With the value "All" the filtered glycans are the glycans of the
    whole table, in table order.  With any other value they are the glycans
    of exactly the records whose kingdom cell (filter "Kingdom") or species
    cell (any other filter), turned into text by [str], has the value as a
    run of its characters, in table order; when no record is such the result
    is the empty list.  The filter is a total function: it raises nothing. *)
Theorem taxonomic_filter_selects (taxonomy_filter taxonomy_value : string) :
  (taxonomy_value = "All" ->
   glycan_values (filter_df taxonomy_filter taxonomy_value) =
   map glycan df_species) /\
  (taxonomy_value <> "All" ->
   selects (fun r => occurs_in taxonomy_value
                       (py_str (if taxonomy_filter =? "Kingdom"
                                then kingdom r else species r)))
           df_species (filter_df taxonomy_filter taxonomy_value) /\
   ((forall r, In r df_species ->
       ~ occurs_in taxonomy_value
           (py_str (if taxonomy_filter =? "Kingdom"
                    then kingdom r else species r))) ->
    glycan_values (filter_df taxonomy_filter taxonomy_value) = [])).
Proof.
  split.
  - intros ->. reflexivity.
  - intros N. pose proof (filter_df_selects taxonomy_filter _ N) as S.
    unfold taxonomy_column in S. split; [exact S|].
    intros Hnone. now rewrite (selects_none _ _ _ S Hnone).
Qed.

End FilterFacts.

(** ** The main/side counter *)

Lemma window_from_cons (init i : nat) (g : string) (rest : list nat) (j : nat) :
  window_from init g (i :: rest) (S j) = window_from i g rest j.
Proof. unfold window_from. now destruct j. Qed.

Lemma filter_seq_S (f : nat -> bool) (n : nat) :
  filter f (seq 0 (S n)) =
  ((if f 0 then [0] else []) ++ map S (filter (fun j => f (S j)) (seq 0 n)))%list.
Proof.
  change (seq 0 (S n)) with (0 :: seq 1 n). rewrite <- seq_shift.
  cbn [filter]. replace (filter f (map S (seq 0 n)))
    with (map S (filter (fun j => f (S j)) (seq 0 n))).
  - now destruct (f 0).
  - induction (seq 0 n) as [|a l IH]; cbn [filter map]; [reflexivity|].
    destruct (f (S a)); cbn [map]; now rewrite IH.
Qed.

Lemma side_from_cons (init i : nat) (g : string) (rest : list nat) :
  side_from init g (i :: rest) =
  (if open_bracket_only (py_slice g init i) then 1 else 0) + side_from i g rest.
Proof.
  unfold side_from. cbn [length]. rewrite filter_seq_S, length_app, length_map.
  change (window_from init g (i :: rest) 0) with (py_slice g init i).
  f_equal. now destruct (open_bracket_only (py_slice g init i)).
Qed.

Lemma main_from_cons (init i : nat) (g : string) (rest : list nat) :
  main_from init g (i :: rest) =
  (if open_bracket_only (py_slice g init i) then 0 else 1) + main_from i g rest.
Proof.
  unfold main_from. cbn [length]. rewrite filter_seq_S, length_app, length_map.
  change (window_from init g (i :: rest) 0) with (py_slice g init i).
  f_equal. now destruct (open_bracket_only (py_slice g init i)).
Qed.

Lemma main_side_from_total (init : nat) (g : string) (starts : list nat) :
  main_from init g starts + side_from init g starts = length starts.
Proof.
  unfold main_from, side_from. rewrite Nat.add_comm, filter_length.
  apply length_seq.
Qed.

Lemma list_sum_cons (x : nat) (l : list nat) :
  list_sum (x :: l) = x + list_sum l.
Proof. reflexivity. Qed.

(** The inner loop, from any counters and any cursor. *)
Lemma inner_loop_counts (g : string) (starts : list nat) :
  forall main side init,
    fst (fold_left (inner_step g) starts (main, side, init)) =
    (main + main_from init g starts, side + side_from init g starts).
Proof.
  induction starts as [|i rest IH]; intros main side init.
  - cbn. now rewrite !Nat.add_0_r.
  - cbn [fold_left]. rewrite main_from_cons, side_from_cons.
    unfold inner_step at 2. fold (open_bracket_only (py_slice g init i)).
    destruct (open_bracket_only (py_slice g init i)); rewrite IH;
      f_equal; lia.
Qed.

Section CounterFacts.
Context {I : Imports}.

Lemma outer_loop_counts (glycoletter : string) (glycan_list : list string) :
  re_valid glycoletter = true ->
  forall main side,
    outer_loop glycoletter glycan_list main side =
    Ok (main + list_sum (map (fun g => main_occurrences g (re_starts glycoletter g))
                             glycan_list),
        side + list_sum (map (fun g => side_occurrences g (re_starts glycoletter g))
                             glycan_list)).
Proof.
  intros V. induction glycan_list as [|g rest IH]; intros main side.
  - cbn. now rewrite !Nat.add_0_r.
  - cbn [outer_loop]. unfold finditer_starts. rewrite V. cbn [bind].
    pose proof (inner_loop_counts g (re_starts glycoletter g) main side 0) as L.
    destruct (fold_left _ _ _) as [[main' side'] init']. cbn [fst] in L.
    injection L as -> ->. rewrite IH. cbn [map list_sum].
    now rewrite <- !Nat.add_assoc.
Qed.

Lemma outer_loop_invalid (glycoletter g : string) (rest : list string) :
  re_valid glycoletter = false ->
  forall main side,
    outer_loop glycoletter (g :: rest) main side =
    Raise (re_raises glycoletter).
Proof.
  intros V main side. cbn [outer_loop]. unfold finditer_starts. now rewrite V.
Qed.

Lemma main_v_side_branch_counts (glycoletter taxonomy_filter taxonomy_value : string) :
  re_valid glycoletter = true ->
  main_v_side_branch glycoletter taxonomy_filter taxonomy_value =
  Ok (list_sum (map (fun g => main_occurrences g (re_starts glycoletter g))
                    (glycan_values (filter_df taxonomy_filter taxonomy_value))),
      list_sum (map (fun g => side_occurrences g (re_starts glycoletter g))
                    (glycan_values (filter_df taxonomy_filter taxonomy_value)))).
Proof.
  intros V. unfold main_v_side_branch. cbv zeta.
  now rewrite (outer_loop_counts _ _ V).
Qed.

Lemma list_sum_main_side (glycoletter : string) (glycan_list : list string) :
  list_sum (map (fun g => main_occurrences g (re_starts glycoletter g)) glycan_list) +
  list_sum (map (fun g => side_occurrences g (re_starts glycoletter g)) glycan_list) =
  list_sum (map (fun g => length (re_starts glycoletter g)) glycan_list).
Proof.
  induction glycan_list as [|g rest IH]; [reflexivity|].
  rewrite !map_cons, !list_sum_cons, <- IH.
  rewrite <- (main_side_from_total 0 g (re_starts glycoletter g)).
  unfold main_occurrences, side_occurrences. lia.
Qed.

Lemma list_sum_no_match (glycoletter : string) (glycan_list : list string) :
  (forall g, In g glycan_list -> re_starts glycoletter g = []) ->
  list_sum (map (fun g => length (re_starts glycoletter g)) glycan_list) = 0.
Proof.
  induction glycan_list as [|g rest IH]; intros Hnone; [reflexivity|].
  rewrite map_cons, list_sum_cons, (Hnone g (or_introl eq_refl)).
  apply IH. intros g' Hg'. apply Hnone. now right.
Qed.

(** C1. When the pattern compiles, the counter returns, for the filtered
    glycans taken together, the number of occurrences whose window holds an
    opening bracket and no closing one as [side] and the number of all other
    occurrences as [main].  The window of an occurrence runs from the start
    of the previous occurrence of the same glycan (from the start of the
    string for the first one) to its own start: the cursor moves to the start
    of an occurrence, so the text of that occurrence opens the next window. *)
Theorem main_v_side_branch_classifies
    (glycoletter taxonomy_filter taxonomy_value : string) :
  re_valid glycoletter = true ->
  main_v_side_branch glycoletter taxonomy_filter taxonomy_value =
  Ok (list_sum
        (map (fun g =>
                let starts := re_starts glycoletter g in
                length (filter (fun j => negb (open_bracket_only (window g starts j)))
                               (seq 0 (length starts))))
             (glycan_values (filter_df taxonomy_filter taxonomy_value))),
      list_sum
        (map (fun g =>
                let starts := re_starts glycoletter g in
                length (filter (fun j => open_bracket_only (window g starts j))
                               (seq 0 (length starts))))
             (glycan_values (filter_df taxonomy_filter taxonomy_value)))) /\
  (forall g starts j,
      window g starts (S j) = py_slice g (nth j starts 0) (nth (S j) starts 0) /\
      window g starts 0 = py_slice g 0 (nth 0 starts 0)) /\
  (forall gly,
      open_bracket_only gly = true <->
      occurs_in "[" gly /\ ~ occurs_in "]" gly).
Proof.
  intros V. split; [|split].
  - exact (main_v_side_branch_counts _ _ _ V).
  - intros g starts j. split; reflexivity.
  - intros gly. unfold open_bracket_only.
    rewrite andb_true_iff, negb_true_iff, <- !py_in_occurs.
    now destruct (py_in "]" gly).
Qed.

(** C2. When the pattern compiles, the counter returns two numbers whose sum
    is the number of matches the matcher yields over all the filtered
    glycans; when no glycan has a match, both are 0. *)
Theorem main_plus_side_is_match_count
    (glycoletter taxonomy_filter taxonomy_value : string) :
  re_valid glycoletter = true ->
  exists main side,
    main_v_side_branch glycoletter taxonomy_filter taxonomy_value = Ok (main, side) /\
    main + side =
      list_sum (map (fun g => length (re_starts glycoletter g))
                    (glycan_values (filter_df taxonomy_filter taxonomy_value))) /\
    ((forall g, In g (glycan_values (filter_df taxonomy_filter taxonomy_value)) ->
                re_starts glycoletter g = []) ->
     (main, side) = (0, 0)).
Proof.
  intros V. eexists _, _. split; [exact (main_v_side_branch_counts _ _ _ V)|].
  split; [apply list_sum_main_side|].
  intros Hnone. pose proof (list_sum_main_side glycoletter
    (glycan_values (filter_df taxonomy_filter taxonomy_value))) as T.
  rewrite (list_sum_no_match _ _ Hnone) in T. f_equal; lia.
Qed.

End CounterFacts.

(** ** Sorted lists *)

Lemma StronglySorted_weaken {A : Type} (R R' : A -> A -> Prop) (l : list A) :
  (forall a b, In a l -> In b l -> R a b -> R' a b) ->
  StronglySorted R l -> StronglySorted R' l.
Proof.
  intros W S. induction S as [|a l S IH F]; constructor.
  - apply IH. intros x y Hx Hy. apply W; now right.
  - rewrite Forall_forall in *. intros b Hb.
    apply W; [now left | now right | now apply F].
Qed.

Lemma StronglySorted_snoc {A : Type} (R : A -> A -> Prop) (l : list A) (x : A) :
  StronglySorted R l -> Forall (fun a => R a x) l ->
  StronglySorted R (l ++ [x])%list.
Proof.
  intros S. induction S as [|a l S IH F]; intros Hx; cbn.
  - repeat constructor.
  - inversion Hx as [|? ? Hax Hlx]; subst. constructor; [now apply IH|].
    apply Forall_app. split; [assumption | now repeat constructor].
Qed.

Lemma StronglySorted_map {A B : Type} (f : A -> B) (R : B -> B -> Prop)
    (l : list A) :
  StronglySorted R (map f l) ->
  StronglySorted (fun a b => R (f a) (f b)) l.
Proof.
  induction l as [|a l IH]; cbn; intros S; [constructor|].
  apply StronglySorted_inv in S as [S F].
  constructor; [now apply IH|].
  rewrite Forall_map in F. exact F.
Qed.

Lemma StronglySorted_filter {A : Type} (R : A -> A -> Prop) (f : A -> bool)
    (l : list A) :
  StronglySorted R l -> StronglySorted R (filter f l).
Proof.
  induction 1 as [|a l S IH F]; cbn; [constructor|].
  destruct (f a); [|assumption].
  constructor; [assumption|].
  rewrite Forall_forall in *. intros b Hb. apply F.
  now apply filter_In in Hb.
Qed.

Lemma StronglySorted_nth {A : Type} (R : A -> A -> Prop) (l : list A) (d : A) :
  StronglySorted R l ->
  forall i j, i < j -> j < length l -> R (nth i l d) (nth j l d).
Proof.
  induction 1 as [|a l S IH F]; intros i j Hij Hj; cbn in Hj; [lia|].
  destruct j as [|j]; [lia|]. destruct i as [|i]; cbn [nth].
  - rewrite Forall_forall in F. apply F, nth_In. lia.
  - apply IH; lia.
Qed.

(** ** First appearance *)

Lemma first_index_lt (p : string) (l : list string) :
  In p l -> first_index p l < length l.
Proof.
  induction l as [|x l IH]; cbn; [contradiction|]. intros [->|H].
  - rewrite String.eqb_refl. lia.
  - destruct (x =? p); [lia|]. specialize (IH H). lia.
Qed.

Lemma first_index_app (p : string) (l r : list string) :
  In p l -> first_index p (l ++ r) = first_index p l.
Proof.
  induction l as [|x l IH]; cbn; [contradiction|]. intros [->|H].
  - now rewrite String.eqb_refl.
  - destruct (x =? p); [reflexivity|]. now rewrite IH.
Qed.

Lemma first_index_fresh (p : string) (l : list string) :
  ~ In p l -> first_index p (l ++ [p]) = length l.
Proof.
  induction l as [|x l IH]; cbn; intros N.
  - now rewrite String.eqb_refl.
  - destruct (String.eqb_spec x p) as [->|_]; [elim N; now left|].
    rewrite IH; [reflexivity|]. intros H. apply N. now right.
Qed.

(** ** [Counter] *)

Lemma counter_add_fresh (x : string) (c : list (string * nat)) :
  ~ In x (map fst c) -> counter_add x c = (c ++ [(x, 1)])%list.
Proof.
  induction c as [|[y n] c IH]; cbn; intros N; [reflexivity|].
  destruct (String.eqb_spec y x) as [->|_]; [elim N; now left|].
  rewrite IH; [reflexivity|]. intros H. apply N. now right.
Qed.

Lemma counter_add_keys (x : string) (c : list (string * nat)) :
  In x (map fst c) -> map fst (counter_add x c) = map fst c.
Proof.
  induction c as [|[y n] c IH]; cbn; [contradiction|]. intros H.
  destruct (String.eqb_spec y x) as [->|N]; [reflexivity|].
  cbn. rewrite IH; [reflexivity|]. destruct H; [contradiction | assumption].
Qed.

Lemma counter_add_entry (x : string) (c : list (string * nat)) :
  NoDup (map fst c) ->
  forall p n, In (p, n) (counter_add x c) ->
    (p <> x /\ In (p, n) c) \/
    (p = x /\ exists n0, n = S n0 /\ In (x, n0) c) \/
    (p = x /\ n = 1 /\ ~ In x (map fst c)).
Proof.
  induction c as [|[y m] c IH]; cbn [counter_add map fst]; intros ND p n H.
  - destruct H as [H|[]]. injection H as <- <-. right; right. now repeat split.
  - apply NoDup_cons_iff in ND as [Hy ND].
    destruct (String.eqb_spec y x) as [->|Nyx].
    + destruct H as [H|H].
      * injection H as <- <-. right; left. split; [reflexivity|].
        exists m. split; [reflexivity | now left].
      * left. split; [|now right]. intros E. apply Hy.
        apply (in_map fst) in H. cbn in H. now rewrite <- E.
    + destruct H as [H|H].
      * injection H as <- <-. left. split; [assumption | now left].
      * destruct (IH ND p n H) as [[Np Hin]|[[-> (n0 & -> & Hin)]|[-> [-> Nin]]]].
        -- left. split; [assumption | now right].
        -- right; left. split; [reflexivity|]. exists n0.
           split; [reflexivity | now right].
        -- right; right. repeat split. intros [E|Hin]; [now apply Nyx|].
           now apply Nin.
Qed.

Lemma Counter_snoc (l : list string) (x : string) :
  Counter (l ++ [x]) = counter_add x (Counter l).
Proof. unfold Counter. now rewrite fold_left_app. Qed.

(** The keys of a [Counter] are the distinct elements of the list in the
    order of their first appearance, each with its number of occurrences. *)
Lemma Counter_invariant (l : list string) :
  NoDup (map fst (Counter l)) /\
  (forall p, In p (map fst (Counter l)) <-> In p l) /\
  (forall p n, In (p, n) (Counter l) -> n = count_occ string_dec l p) /\
  StronglySorted (fun a b => first_index a l < first_index b l)
                 (map fst (Counter l)).
Proof.
  induction l as [|x l (ND & Keys & Cnt & Srt)] using rev_ind.
  - cbn. repeat split; try constructor; try contradiction.
  - rewrite Counter_snoc. destruct (in_dec string_dec x l) as [Hx|Hx].
    + assert (Hk : In x (map fst (Counter l))) by now apply Keys.
      rewrite (counter_add_keys _ _ Hk). repeat split.
      * assumption.
      * intros H. apply in_or_app. left. now apply Keys.
      * intros H. apply in_app_or in H as [H|[<-|[]]]; now apply Keys.
      * intros p n H. rewrite count_occ_app.
        destruct (counter_add_entry x _ ND p n H)
          as [[Np Hin]|[[-> (n0 & -> & Hin)]|[-> [-> Nin]]]].
        -- rewrite (Cnt p n Hin). cbn.
           destruct (string_dec x p) as [E|_]; [now elim Np | lia].
        -- rewrite (Cnt x n0 Hin). cbn.
           destruct (string_dec x x) as [_|E]; [lia | now elim E].
        -- contradiction.
      * revert Srt. apply StronglySorted_weaken. intros a b Ha Hb.
        apply Keys in Ha, Hb. now rewrite !first_index_app.
    + assert (Hk : ~ In x (map fst (Counter l))) by now rewrite Keys.
      rewrite (counter_add_fresh _ _ Hk), map_app. cbn [map fst].
      repeat split.
      * apply (Permutation_NoDup (Permutation_cons_append _ x)).
        now constructor.
      * intros H. apply in_app_or in H as [H|[<-|[]]]; apply in_or_app.
        -- left. now apply Keys.
        -- right. now left.
      * intros H. apply in_app_or in H as [H|[<-|[]]]; apply in_or_app.
        -- left. now apply Keys.
        -- right. now left.
      * intros p n H. rewrite count_occ_app.
        apply in_app_or in H as [H|[H|[]]].
        -- rewrite (Cnt p n H). cbn.
           destruct (string_dec x p) as [E|_]; [|lia].
           elim Hk. apply (in_map fst) in H. cbn in H. now rewrite E.
        -- injection H as <- <-. rewrite (count_occ_not_In string_dec l x) in Hx.
           rewrite Hx. cbn. destruct (string_dec x x) as [_|E]; [lia | now elim E].
      * apply StronglySorted_snoc.
        -- revert Srt. apply StronglySorted_weaken. intros a b Ha Hb.
           apply Keys in Ha, Hb. now rewrite !first_index_app.
        -- apply Forall_forall. intros a Ha. apply Keys in Ha.
           rewrite (first_index_app _ _ _ Ha), (first_index_fresh _ _ Hx).
           now apply first_index_lt.
Qed.

(** ** [most_common] *)

Lemma insert_desc_perm (x : string * nat) (l : list (string * nat)) :
  Permutation (insert_desc x l) (x :: l).
Proof.
  induction l as [|y l IH]; cbn [insert_desc]; [reflexivity|].
  destruct (snd x <? snd y)%nat; [|reflexivity].
  rewrite IH. apply perm_swap.
Qed.

Lemma most_common_perm (c : list (string * nat)) :
  Permutation (most_common c) c.
Proof.
  induction c as [|x c IH]; cbn [most_common]; [reflexivity|].
  rewrite insert_desc_perm. now constructor.
Qed.

Lemma insert_desc_sorted (R : string * nat -> string * nat -> Prop)
    (x : string * nat) (s : list (string * nat)) :
  StronglySorted (count_then R) s -> Forall (R x) s ->
  StronglySorted (count_then R) (insert_desc x s).
Proof.
  induction 1 as [|y s S IH F]; intros Hx; cbn [insert_desc].
  - repeat constructor.
  - inversion Hx as [|? ? Hxy Hxs]; subst.
    destruct (Nat.ltb_spec (snd x) (snd y)) as [Lt|Ge].
    + constructor; [now apply IH|].
      apply (Permutation_Forall (Permutation_sym (insert_desc_perm x s))).
      constructor; [now left | assumption].
    + constructor; [now constructor|].
      constructor.
      * unfold count_then. destruct (Nat.eq_dec (snd x) (snd y)); [right|left].
        -- now split.
        -- lia.
      * rewrite Forall_forall in *. intros z Hz.
        specialize (F z Hz). specialize (Hxs z Hz). unfold count_then in *.
        destruct (Nat.eq_dec (snd x) (snd z)); [right|left].
        -- now split.
        -- lia.
Qed.

(** The sort is stable: entries that came ordered by [R] leave ordered by
    decreasing count, and by [R] among equal counts. *)
Lemma most_common_stable (R : string * nat -> string * nat -> Prop)
    (c : list (string * nat)) :
  StronglySorted R c -> StronglySorted (count_then R) (most_common c).
Proof.
  induction 1 as [|x c S IH F]; cbn [most_common]; [constructor|].
  apply insert_desc_sorted; [assumption|].
  now apply (Permutation_Forall (Permutation_sym (most_common_perm c))).
Qed.

(** ** Lines 65-67 *)

Lemma combine_fst_snd {A B : Type} (l : list (A * B)) :
  combine (map fst l) (map snd l) = l.
Proof. induction l as [|[a b] l IH]; cbn; [reflexivity | now rewrite IH]. Qed.

Lemma NoDup_keys_filter {A B : Type} (f : A * B -> bool) (l : list (A * B)) :
  NoDup (map fst l) -> NoDup (map fst (filter f l)).
Proof.
  induction l as [|x l IH]; cbn; intros ND; [constructor|].
  apply NoDup_cons_iff in ND as [Hx ND]. destruct (f x); cbn; [|now apply IH].
  constructor; [|now apply IH]. intros H. apply Hx.
  apply in_map_iff in H as (y & E & Hy). apply filter_In in Hy as [Hy _].
  rewrite <- E. now apply in_map.
Qed.

Lemma frequent_keys_NoDup (pool : list string) :
  NoDup (map fst (frequent pool)).
Proof.
  apply NoDup_keys_filter.
  apply (Permutation_NoDup
           (Permutation_map fst (Permutation_sym (most_common_perm _)))).
  apply Counter_invariant.
Qed.

Lemma frequent_entry (pool : list string) (p : string) (n : nat) :
  In (p, n) (frequent pool) <->
  In p pool /\ n = count_occ string_dec pool p /\ 10 < n.
Proof.
  destruct (Counter_invariant pool) as (ND & Keys & Cnt & _).
  unfold frequent. rewrite filter_In. cbn [snd]. rewrite Nat.ltb_lt. split.
  - intros [H Hn]. apply (Permutation_in _ (most_common_perm _)) in H.
    repeat split; [|now apply Cnt | assumption].
    apply Keys. apply (in_map fst) in H. exact H.
  - intros (Hp & -> & Hn). split; [|assumption].
    apply (Permutation_in _ (Permutation_sym (most_common_perm _))).
    apply Keys, in_map_iff in Hp as ([q m] & E & Hq). cbn in E. subst q.
    now rewrite <- (Cnt p m Hq).
Qed.

Lemma frequent_sorted (pool : list string) :
  StronglySorted
    (count_then (fun a b => first_index (fst a) pool < first_index (fst b) pool))
    (frequent pool).
Proof.
  apply StronglySorted_filter, most_common_stable.
  apply (StronglySorted_map fst (fun a b => first_index a pool < first_index b pool)).
  apply Counter_invariant.
Qed.

(** ** The list comprehensions of lines 57-63 *)

Lemma string_append_assoc (a b c : string) : (a ++ b) ++ c = a ++ b ++ c.
Proof. induction a as [|x a IH]; cbn; [reflexivity | now rewrite IH]. Qed.

Lemma py_index_field (t : string) (i : nat) :
  i < length (split_star t) -> py_index (split_star t) i = Ok (field i t).
Proof.
  intros H. unfold py_index, field. now rewrite (nth_error_nth' _ "" H).
Qed.

Lemma comprehension_triples (glycoletter : string) (key part : nat)
    (pool : list string) :
  key < 3 -> part < 3 -> Forall bond_triple pool ->
  comprehension glycoletter key part pool =
  Ok (partner_pool glycoletter key part pool).
Proof.
  intros Hk Hp. unfold partner_pool.
  induction 1 as [|t pool Ht _ IH]; cbn [comprehension filter map]; [reflexivity|].
  unfold bond_triple in Ht.
  rewrite py_index_field by lia. cbn [bind].
  destruct (field key t =? glycoletter); [|exact IH].
  rewrite py_index_field by lia. cbn [bind]. now rewrite IH.
Qed.

Lemma count_occ_partner_pool (glycoletter : string) (key part : nat)
    (pool : list string) (p : string) :
  count_occ string_dec (partner_pool glycoletter key part pool) p =
  tally glycoletter key part pool p.
Proof.
  unfold partner_pool, tally.
  induction pool as [|t pool IH]; cbn [filter map]; [reflexivity|].
  destruct (field key t =? glycoletter); cbn [andb map count_occ]; [|exact IH].
  destruct (string_dec (field part t) p) as [E|N].
  - rewrite E, String.eqb_refl. cbn [length]. now rewrite IH.
  - apply String.eqb_neq in N. now rewrite N.
Qed.




Section CharacterizerFacts.
Context {I : Imports}.

(** What the function returns under a recognized mode, when the tokens of
    the pool are triples. *)
Lemma characterize_context_recognized
    (glycoletter mode taxonomy_filter taxonomy_value : string)
    (key part : nat) (text : string) :
  mode_table mode = Some (key, part, text) ->
  Forall bond_triple (pool_of taxonomy_filter taxonomy_value) ->
  characterize_context glycoletter mode taxonomy_filter taxonomy_value =
  let top := frequent (partner_pool glycoletter key part
                         (pool_of taxonomy_filter taxonomy_value)) in
  Ok ((text ++ glycoletter) ++ label_suffix taxonomy_filter taxonomy_value,
      map fst top, map snd top).
Proof.
  intros M T. unfold characterize_context, mode_table in *. cbv zeta.
  fold (pool_of taxonomy_filter taxonomy_value).
  destruct (mode =? "bond").
  { injection M as <- <- <-.
    rewrite comprehension_triples by (assumption || lia). reflexivity. }
  destruct (mode =? "sugar").
  { injection M as <- <- <-.
    rewrite comprehension_triples by (assumption || lia). reflexivity. }
  destruct (mode =? "sugarbond").
  { injection M as <- <- <-.
    rewrite comprehension_triples by (assumption || lia). reflexivity. }
  discriminate.
Qed.

Lemma characterize_context_unrecognized
    (glycoletter mode taxonomy_filter taxonomy_value : string) :
  ~ recognized mode ->
  characterize_context glycoletter mode taxonomy_filter taxonomy_value =
  Raise UnboundLocalError.
Proof.
  intros N. unfold characterize_context, recognized in *. cbv zeta.
  destruct (String.eqb_spec mode "bond"); [tauto|].
  destruct (String.eqb_spec mode "sugar"); [tauto|].
  destruct (String.eqb_spec mode "sugarbond"); [tauto|].
  reflexivity.
Qed.

End CharacterizerFacts.

(** ** The context characterizer *)

Section Characterizer.
Context {I : Imports}.

(** C4. When the tokens of the pool are triples, each of the three modes
    returns its label, the text of the mode followed by the glycoletter and
    by the suffix " (taxonomy_filter = taxonomy_value)", and it returns a
    partner [p] with the count [n] exactly when [n] is the number of tokens
    of the flattened pool whose key field is equal to the glycoletter and
    whose partner field is [p], and [n] is above 10.  The fields are counted
    from 0: "bond" has key 1 and partner 0, "sugar" key 0 and partner 2,
    "sugarbond" key 0 and partner 1. *)
Theorem characterize_context_modes
    (glycoletter taxonomy_filter taxonomy_value : string) :
  Forall bond_triple (pool_of taxonomy_filter taxonomy_value) ->
  forall mode key part text,
    In (mode, key, part, text)
       [("bond", 1, 0, "Observed monosaccharides making bond ");
        ("sugar", 0, 2, "Observed monosaccharides paired with ");
        ("sugarbond", 0, 1, "Observed bonds made by ")] ->
    exists cou_k cou_v,
      characterize_context glycoletter mode taxonomy_filter taxonomy_value =
        Ok (text ++ glycoletter ++
              " (" ++ taxonomy_filter ++ " = " ++ taxonomy_value ++ ")",
            cou_k, cou_v) /\
      forall p n,
        In (p, n) (combine cou_k cou_v) <->
        n = length (filter (fun t => (field key t =? glycoletter) &&
                                     (field part t =? p))
                           (pool_of taxonomy_filter taxonomy_value)) /\
        10 < n.
Proof.
  intros T mode key part text Hmode.
  assert (M : mode_table mode = Some (key, part, text)).
  { cbn in Hmode.
    destruct Hmode as [E|[E|[E|[]]]]; injection E as <- <- <- <-; reflexivity. }
  eexists _, _. split.
  - rewrite (characterize_context_recognized _ _ _ _ _ _ _ M T). cbv zeta.
    now rewrite string_append_assoc.
  - intros p n. rewrite combine_fst_snd, frequent_entry, count_occ_partner_pool.
    fold (tally glycoletter key part (pool_of taxonomy_filter taxonomy_value) p).
    split; [tauto|]. intros [-> Hn]. repeat split; [|assumption].
    apply (count_occ_In string_dec). rewrite count_occ_partner_pool. lia.
Qed.

(** C5, as the code has it. Under a mode other than the three, the call
    returns nothing: reading the label that no branch assigned raises
    [UnboundLocalError]. *)
Theorem unrecognized_mode_raises_unbound_local
    (glycoletter mode taxonomy_filter taxonomy_value : string) :
  mode <> "bond" -> mode <> "sugar" -> mode <> "sugarbond" ->
  characterize_context glycoletter mode taxonomy_filter taxonomy_value =
  Raise UnboundLocalError.
Proof.
  intros N1 N2 N3. apply characterize_context_unrecognized.
  unfold recognized. tauto.
Qed.

(** C6. Under a recognized mode and with triples in the pool, every partner
    returned has a tally above 10, and every partner of the selected pool
    that is not returned has a tally of at most 10. *)
Theorem threshold_splits_partners
    (glycoletter mode taxonomy_filter taxonomy_value : string)
    (key part : nat) (text : string) :
  mode_table mode = Some (key, part, text) ->
  Forall bond_triple (pool_of taxonomy_filter taxonomy_value) ->
  exists lab cou_k cou_v,
    characterize_context glycoletter mode taxonomy_filter taxonomy_value =
      Ok (lab, cou_k, cou_v) /\
    (forall p, In p cou_k ->
       10 < tally glycoletter key part (pool_of taxonomy_filter taxonomy_value) p) /\
    (forall p,
       In p (partner_pool glycoletter key part
               (pool_of taxonomy_filter taxonomy_value)) ->
       ~ In p cou_k ->
       tally glycoletter key part (pool_of taxonomy_filter taxonomy_value) p <= 10).
Proof.
  intros M T. eexists _, _, _. split.
  - exact (characterize_context_recognized _ _ _ _ _ _ _ M T).
  - split.
    + intros p Hp. apply in_map_iff in Hp as ([q n] & E & Hq). cbn in E. subst q.
      apply frequent_entry in Hq as (_ & -> & Hn).
      now rewrite count_occ_partner_pool in Hn.
    + intros p Hp Hout. apply Nat.nlt_ge. intros Hn. apply Hout.
      rewrite <- count_occ_partner_pool in Hn.
      assert (H : In (p, count_occ string_dec
                           (partner_pool glycoletter key part
                              (pool_of taxonomy_filter taxonomy_value)) p)
                     (frequent (partner_pool glycoletter key part
                                  (pool_of taxonomy_filter taxonomy_value))))
        by now apply frequent_entry.
      apply (in_map fst) in H. exact H.
Qed.

(** C7. Under a recognized mode and with triples in the pool, the counts
    returned never increase from one position to the next, and of two
    partners returned with the same count the one that appears first in the
    selected pool comes first. *)
Theorem partners_sorted_by_count
    (glycoletter mode taxonomy_filter taxonomy_value : string)
    (key part : nat) (text : string) :
  mode_table mode = Some (key, part, text) ->
  Forall bond_triple (pool_of taxonomy_filter taxonomy_value) ->
  exists lab cou_k cou_v,
    characterize_context glycoletter mode taxonomy_filter taxonomy_value =
      Ok (lab, cou_k, cou_v) /\
    forall i j, i < j -> j < length cou_k ->
      nth j cou_v 0 <= nth i cou_v 0 /\
      (nth i cou_v 0 = nth j cou_v 0 ->
       first_index (nth i cou_k "")
         (partner_pool glycoletter key part
            (pool_of taxonomy_filter taxonomy_value)) <
       first_index (nth j cou_k "")
         (partner_pool glycoletter key part
            (pool_of taxonomy_filter taxonomy_value))).
Proof.
  intros M T. eexists _, _, _. split.
  - exact (characterize_context_recognized _ _ _ _ _ _ _ M T).
  - cbv zeta. intros i j Hij Hj. rewrite length_map in Hj.
    pose proof (StronglySorted_nth _ _ ("", 0) (frequent_sorted _) i j Hij Hj) as S.
    change "" with (fst ("", 0)). change 0 with (snd ("", 0)) at 1 2 3 4.
    rewrite !map_nth. unfold count_then in S. cbn [fst snd] in *.
    split; [lia|]. intros E. destruct S as [S|[_ S]]; [lia | exact S].
Qed.

(** C10. Under a recognized mode and with triples in the pool, the two
    lists returned have the same length, no partner is returned twice, and
    the count at a position is the tally of the partner at that position. *)
Theorem partners_and_counts_aligned
    (glycoletter mode taxonomy_filter taxonomy_value : string)
    (key part : nat) (text : string) :
  mode_table mode = Some (key, part, text) ->
  Forall bond_triple (pool_of taxonomy_filter taxonomy_value) ->
  exists lab cou_k cou_v,
    characterize_context glycoletter mode taxonomy_filter taxonomy_value =
      Ok (lab, cou_k, cou_v) /\
    length cou_k = length cou_v /\
    NoDup cou_k /\
    forall i, i < length cou_k ->
      nth i cou_v 0 =
      tally glycoletter key part (pool_of taxonomy_filter taxonomy_value)
            (nth i cou_k "").
Proof.
  intros M T. eexists _, _, _. split.
  - exact (characterize_context_recognized _ _ _ _ _ _ _ M T).
  - cbv zeta. repeat split.
    + now rewrite !length_map.
    + apply frequent_keys_NoDup.
    + intros i Hi. rewrite length_map in Hi.
      pose proof (nth_In _ ("", 0) Hi) as H.
      change "" with (fst ("", 0)). change 0 with (snd ("", 0)) at 1.
      rewrite !map_nth. destruct (nth i _ _) as [p n]. cbn [fst snd].
      apply frequent_entry in H as (_ & -> & _).
      apply count_occ_partner_pool.
Qed.

End Characterizer.

(** ** Absent glycoletters, empty selections and the value "All" *)

Section Degenerate.
Context {I : Imports}.




(** C9, as the code has it. When the filter keeps every record of the
    table, the counter returns what it returns under the value "All", and
    the characterizer returns the same partner list and the same count list,
    or fails the same way; the labels are left out of the comparison. *)
Theorem all_is_identity_filter
    (glycoletter mode taxonomy_filter taxonomy_value any_filter : string) :
  matches_every_record taxonomy_filter taxonomy_value ->
  main_v_side_branch glycoletter taxonomy_filter taxonomy_value =
  main_v_side_branch glycoletter any_filter "All" /\
  result_map drop_label
    (characterize_context glycoletter mode taxonomy_filter taxonomy_value) =
  result_map drop_label
    (characterize_context glycoletter mode any_filter "All").
Proof.
  intros H. apply filter_df_matches_every in H. split.
  - unfold main_v_side_branch. now rewrite H, filter_df_All.
  - unfold characterize_context. rewrite H, filter_df_All. cbv zeta.
    destruct (if mode =? "bond" then _ else _) as [[pool [lab|]]|e];
      reflexivity.
Qed.

End Degenerate.

(** ** The module on the small tables *)

(** The example of the specification: the only occurrence of "GlcNAc" in
    "Gal(b1-4)[Fuc(a1-3)]GlcNAc" follows a closed branch and counts as
    main chain. *)
Lemma main_v_side_branch_classifies_witness :
  @re_valid small "GlcNAc" = true /\
  @main_v_side_branch small "GlcNAc" "Kingdom" "Animalia" = Ok (1, 0).
Proof.
  split; [reflexivity|].
  exact (proj1 (@main_v_side_branch_classifies small "GlcNAc" "Kingdom"
                  "Animalia" eq_refl)).
Defined.

Lemma main_plus_side_is_match_count_witness :
  @re_valid small "Man" = true /\
  exists main side,
    @main_v_side_branch small "Man" "Kingdom" "Fungi" = Ok (main, side) /\
    main + side = 4.
Proof.
  split; [reflexivity|].
  destruct (@main_plus_side_is_match_count small "Man" "Kingdom" "Fungi" eq_refl)
    as (main & side & E & S & _).
  exists main, side. split; [exact E | exact S].
Defined.

Lemma taxonomic_filter_selects_witness :
  glycan_values (@filter_df small "Species" "All") =
    ["Gal(b1-4)[Fuc(a1-3)]GlcNAc"; "Man(a1-2)Man(a1-3)[Man(a1-6)]Man";
     "Glc(b1-3)Glc"] /\
  glycan_values (@filter_df small "Kingdom" "Plantae") = [].
Proof.
  split.
  - exact (proj1 (@taxonomic_filter_selects small "Species" "All") eq_refl).
  - refine (proj2 (proj2 (@taxonomic_filter_selects small "Kingdom" "Plantae") _) _).
    + discriminate.
    + intros r [<-|[<-|[<-|[]]]] H; apply py_in_occurs in H; discriminate H.
Defined.

Lemma characterize_context_modes_witness :
  Forall bond_triple (@pool_of demo "Kingdom" "All") /\
  exists cou_k cou_v,
    @characterize_context demo "b1-4" "bond" "Kingdom" "All" =
      Ok ("Observed monosaccharides making bond b1-4 (Kingdom = All)",
          cou_k, cou_v) /\
    In ("Gal", 12) (combine cou_k cou_v).
Proof.
  assert (T : Forall bond_triple (@pool_of demo "Kingdom" "All"))
    by (vm_compute; repeat constructor).
  split; [exact T|].
  destruct (@characterize_context_modes demo "b1-4" "Kingdom" "All" T
              "bond" 1 0 "Observed monosaccharides making bond "
              (or_introl eq_refl))
    as (cou_k & cou_v & E & H).
  exists cou_k, cou_v. split; [exact E|].
  apply H. split; [reflexivity | lia].
Defined.

Lemma unrecognized_mode_raises_unbound_local_witness :
  @characterize_context demo "b1-4" "bonds" "Kingdom" "All" =
  Raise UnboundLocalError.
Proof.
  apply (@unrecognized_mode_raises_unbound_local demo); discriminate.
Defined.

Lemma threshold_splits_partners_witness :
  exists lab cou_k cou_v,
    @characterize_context demo "Gal" "sugar" "Kingdom" "All" =
      Ok (lab, cou_k, cou_v) /\
    (forall p, In p cou_k -> 10 < tally "Gal" 0 2 (@pool_of demo "Kingdom" "All") p).
Proof.
  destruct (@threshold_splits_partners demo "Gal" "sugar" "Kingdom" "All" 0 2
              "Observed monosaccharides paired with " eq_refl)
    as (lab & cou_k & cou_v & E & H & _).
  - vm_compute; repeat constructor.
  - exists lab, cou_k, cou_v. split; [exact E | exact H].
Defined.

(** On eleven records of the mannan followed by twelve of Lewis x: the bond
    a1-3 is made by "Man" first, 11 times, and by "Fuc" 12 times, and "Fuc"
    is returned first; the three bonds made by "Man" are tied at 11 and
    are returned in the order of their first appearance. *)
Lemma partners_sorted_by_count_witness :
  (exists lab,
     @characterize_context ranked "a1-3" "bond" "Kingdom" "All" =
       Ok (lab, ["Fuc"; "Man"], [12; 11]) /\
     forall i j, i < j -> j < 2 ->
       nth j [12; 11] 0 <= nth i [12; 11] 0 /\
       (nth i [12; 11] 0 = nth j [12; 11] 0 ->
        first_index (nth i ["Fuc"; "Man"] "")
          (partner_pool "a1-3" 1 0 (@pool_of ranked "Kingdom" "All")) <
        first_index (nth j ["Fuc"; "Man"] "")
          (partner_pool "a1-3" 1 0 (@pool_of ranked "Kingdom" "All")))) /\
  (exists lab,
     @characterize_context ranked "Man" "sugarbond" "Kingdom" "All" =
       Ok (lab, ["a1-2"; "a1-3"; "a1-6"], [11; 11; 11]) /\
     forall i j, i < j -> j < 3 ->
       nth j [11; 11; 11] 0 <= nth i [11; 11; 11] 0 /\
       (nth i [11; 11; 11] 0 = nth j [11; 11; 11] 0 ->
        first_index (nth i ["a1-2"; "a1-3"; "a1-6"] "")
          (partner_pool "Man" 0 1 (@pool_of ranked "Kingdom" "All")) <
        first_index (nth j ["a1-2"; "a1-3"; "a1-6"] "")
          (partner_pool "Man" 0 1 (@pool_of ranked "Kingdom" "All")))).
Proof.
  assert (T : Forall bond_triple (@pool_of ranked "Kingdom" "All"))
    by (vm_compute; repeat constructor).
  split.
  - destruct (@partners_sorted_by_count ranked "a1-3" "bond" "Kingdom" "All"
                1 0 "Observed monosaccharides making bond " eq_refl T)
      as (lab & cou_k & cou_v & E & H).
    vm_compute in E. injection E as <- <- <-.
    eexists. split; [reflexivity | exact H].
  - destruct (@partners_sorted_by_count ranked "Man" "sugarbond" "Kingdom" "All"
                0 1 "Observed bonds made by " eq_refl T)
      as (lab & cou_k & cou_v & E & H).
    vm_compute in E. injection E as <- <- <-.
    eexists. split; [reflexivity | exact H].
Defined.

Lemma partners_and_counts_aligned_witness :
  exists lab cou_k cou_v,
    @characterize_context demo "Gal" "sugarbond" "Species" "sapiens" =
      Ok (lab, cou_k, cou_v) /\
    length cou_k = length cou_v /\ NoDup cou_k.
Proof.
  destruct (@partners_and_counts_aligned demo "Gal" "sugarbond" "Species"
              "sapiens" 0 1 "Observed bonds made by " eq_refl)
    as (lab & cou_k & cou_v & E & L & N & _).
  - vm_compute; repeat constructor.
  - exists lab, cou_k, cou_v. split; [exact E|]. split; [exact L | exact N].
Defined.


Lemma all_is_identity_filter_witness :
  @matches_every_record animals "Kingdom" "Animalia" /\
  @main_v_side_branch animals "Fuc" "Kingdom" "Animalia" =
  @main_v_side_branch animals "Fuc" "Species" "All".
Proof.
  assert (H : @matches_every_record animals "Kingdom" "Animalia")
    by (repeat constructor).
  split; [exact H|].
  exact (proj1 (@all_is_identity_filter animals "Fuc" "bond" "Kingdom"
                  "Animalia" "Species" H)).
Defined.

(** ** Where the code departs from the specification *)

(** Against C5: the mode "bonds" is none of the three, and the error raised
    is not the invalid-argument error. *)
Lemma unrecognized_mode_is_not_value_error :
  ~ recognized "bonds" /\
  @characterize_context demo "b1-4" "bonds" "Kingdom" "All" <> Raise ValueError.
Proof.
  split.
  - intros [H|[H|H]]; discriminate H.
  - intros H. vm_compute in H. discriminate H.
Qed.


(** Against C9: the filter Kingdom = "Animalia" keeps every record of a
    table of animals, and the characterizer does not return what it returns
    under "All": the label names the value. *)
Lemma all_changes_the_label :
  @matches_every_record animals "Kingdom" "Animalia" /\
  @characterize_context animals "b1-4" "bond" "Kingdom" "Animalia" <>
  @characterize_context animals "b1-4" "bond" "Kingdom" "All".
Proof.
  split.
  - repeat constructor.
  - intros H. vm_compute in H. discriminate H.
Qed.

(** An empty selection is never matched against: the counter returns
    (0, 0) even for a pattern that does not compile, which raises as soon as
    one glycan is selected. *)
Lemma empty_selection_skips_the_matcher :
  @main_v_side_branch small "*" "Kingdom" "Plantae" = Ok (0, 0) /\
  @main_v_side_branch small "*" "Kingdom" "All" = Raise re_error.
Proof. split; reflexivity. Qed.

(** The substring test is case sensitive, and a missing cell is matched as
    the text "nan". *)
Lemma filter_is_case_sensitive :
  glycan_values (@filter_df small "Kingdom" "fungi") = [] /\
  glycan_values (@filter_df small "Kingdom" "Fungi") =
    ["Man(a1-2)Man(a1-3)[Man(a1-6)]Man"] /\
  glycan_values (@filter_df small "Species" "nan") = ["Glc(b1-3)Glc"].
Proof. repeat split; reflexivity. Qed.

(** The key field is compared whole: "Gl" is the key of no token although
    "Glc" is. *)
Lemma key_is_compared_whole :
  partner_pool "Gl" 0 2 (@pool_of small "Kingdom" "All") = [] /\
  partner_pool "Glc" 0 2 (@pool_of small "Kingdom" "All") = ["Glc"].
Proof. split; reflexivity. Qed.

(** * Further properties of the module *)

(** ** Exceptions *)

Lemma py_index_out_of_range {A : Type} (l : list A) (i : nat) :
  length l <= i -> py_index l i = Raise IndexError.
Proof.
  intros H. unfold py_index. apply nth_error_None in H. now rewrite H.
Qed.

Lemma forallb_false_witness {A : Type} (f : A -> bool) (l : list A) :
  forallb f l = false -> exists x, In x l /\ f x = false.
Proof.
  induction l as [|x l IH]; cbn; [discriminate|].
  destruct (f x) eqn:E; cbn.
  - intros H. destruct (IH H) as (y & Hy & Fy). exists y. split; [now right | exact Fy].
  - intros _. exists x. split; [now left | exact E].
Qed.

Lemma subscripts_in_range_spec (glycoletter : string) (key part : nat) (t : string) :
  subscripts_in_range glycoletter key part t = false <->
  length (split_star t) <= key \/
  (field key t = glycoletter /\ length (split_star t) <= part).
Proof.
  unfold subscripts_in_range.
  destruct (Nat.ltb_spec key (length (split_star t))) as [K|K];
    destruct (String.eqb_spec (field key t) glycoletter) as [E|E];
    destruct (Nat.ltb_spec part (length (split_star t))) as [P|P];
    cbn; split; intros H; try discriminate; try reflexivity;
    try (left; lia); try (right; split; [assumption | lia]);
    destruct H as [H|[H1 H2]]; try lia; contradiction.
Qed.

(** The comprehension either gives the partner pool or stops on a subscript
    out of range. *)
Lemma comprehension_outcome (glycoletter : string) (key part : nat)
    (pool : list string) :
  comprehension glycoletter key part pool =
  if forallb (subscripts_in_range glycoletter key part) pool
  then Ok (partner_pool glycoletter key part pool)
  else Raise IndexError.
Proof.
  unfold partner_pool.
  induction pool as [|t pool IH]; cbn [comprehension forallb filter map];
    [reflexivity|].
  unfold subscripts_in_range at 1.
  destruct (Nat.ltb_spec key (length (split_star t))) as [K|K]; cbn [andb].
  - rewrite (py_index_field _ _ K). cbn [bind].
    destruct (field key t =? glycoletter); cbn [negb orb].
    + destruct (Nat.ltb_spec part (length (split_star t))) as [P|P].
      * rewrite (py_index_field _ _ P). cbn [bind map]. rewrite IH.
        now destruct (forallb _ pool).
      * now rewrite (py_index_out_of_range _ _ P).
    + exact IH.
  - now rewrite (py_index_out_of_range _ _ K).
Qed.

Section Outcomes.
Context {I : Imports}.

Lemma characterize_context_outcome
    (glycoletter mode taxonomy_filter taxonomy_value : string)
    (key part : nat) (text : string) :
  mode_table mode = Some (key, part, text) ->
  characterize_context glycoletter mode taxonomy_filter taxonomy_value =
  if forallb (subscripts_in_range glycoletter key part)
             (pool_of taxonomy_filter taxonomy_value)
  then
    let top := frequent (partner_pool glycoletter key part
                           (pool_of taxonomy_filter taxonomy_value)) in
    Ok ((text ++ glycoletter) ++ label_suffix taxonomy_filter taxonomy_value,
        map fst top, map snd top)
  else Raise IndexError.
Proof.
  intros M. unfold characterize_context, mode_table in *. cbv zeta.
  fold (pool_of taxonomy_filter taxonomy_value).
  destruct (mode =? "bond").
  { injection M as <- <- <-. rewrite comprehension_outcome.
    now destruct (forallb _ _). }
  destruct (mode =? "sugar").
  { injection M as <- <- <-. rewrite comprehension_outcome.
    now destruct (forallb _ _). }
  destruct (mode =? "sugarbond").
  { injection M as <- <- <-. rewrite comprehension_outcome.
    now destruct (forallb _ _). }
  discriminate.
Qed.

(** X1. The counter raises exactly when the pattern does not compile and
    at least one glycan is selected, and the exception is then the one that
    compiling the pattern raises. *)
Theorem main_v_side_branch_raises
    (glycoletter taxonomy_filter taxonomy_value : string) (e : exception) :
  main_v_side_branch glycoletter taxonomy_filter taxonomy_value = Raise e <->
  re_valid glycoletter = false /\
  glycan_values (filter_df taxonomy_filter taxonomy_value) <> [] /\
  e = re_raises glycoletter.
Proof.
  destruct (re_valid glycoletter) eqn:V.
  - rewrite (main_v_side_branch_counts _ _ _ V).
    split; [discriminate | now intros (H & _)].
  - unfold main_v_side_branch. cbv zeta.
    destruct (glycan_values (filter_df taxonomy_filter taxonomy_value))
      as [|g rest].
    + cbn. split; [discriminate | now intros (_ & H & _)].
    + rewrite (outer_loop_invalid _ _ _ V). split.
      * intros [= <-]. now repeat split.
      * now intros (_ & _ & ->).
Qed.

(** X2. Under a recognized mode the characterizer raises nothing but
    [IndexError], and it raises it exactly when some token of the pool has
    no key field, or has the glycoletter as key field and no partner
    field. *)
Theorem characterize_context_raises
    (glycoletter mode taxonomy_filter taxonomy_value : string)
    (key part : nat) (text : string) (e : exception) :
  mode_table mode = Some (key, part, text) ->
  (characterize_context glycoletter mode taxonomy_filter taxonomy_value = Raise e <->
   e = IndexError /\
   exists t, In t (pool_of taxonomy_filter taxonomy_value) /\
     (length (split_star t) <= key \/
      (field key t = glycoletter /\ length (split_star t) <= part))).
Proof.
  intros M. rewrite (characterize_context_outcome _ _ _ _ _ _ _ M).
  destruct (forallb _ _) eqn:F.
  - split; [discriminate|]. intros (_ & t & Ht & Bad).
    apply subscripts_in_range_spec in Bad.
    rewrite forallb_forall in F. rewrite (F t Ht) in Bad. discriminate.
  - split.
    + intros [= <-]. split; [reflexivity|].
      destruct (forallb_false_witness _ _ F) as (t & Ht & Bad).
      exists t. split; [exact Ht | now apply subscripts_in_range_spec].
    + now intros (-> & _).
Qed.

End Outcomes.

Lemma main_v_side_branch_raises_witness :
  @main_v_side_branch small "(" "Kingdom" "Animalia" = Raise re_error.
Proof.
  apply (@main_v_side_branch_raises small). repeat split; discriminate.
Defined.

Lemma characterize_context_raises_witness :
  @characterize_context ragged "Fuc" "sugar" "Kingdom" "All" = Raise IndexError.
Proof.
  apply (@characterize_context_raises ragged "Fuc" "sugar" "Kingdom" "All" 0 2
           "Observed monosaccharides paired with " IndexError eq_refl).
  split; [reflexivity|]. exists "Fuc*a1-3".
  split; [right; left; reflexivity|]. right. split; [reflexivity|]. cbn. lia.
Defined.

(** ** Brackets *)

Lemma substring_head (m : nat) (s : string) :
  exists post, s = substring 0 m s ++ post.
Proof.
  revert m. induction s as [|c s IH]; intros [|m]; cbn.
  - now exists "".
  - now exists "".
  - now exists (String c s).
  - destruct (IH m) as [post E]. exists post. now rewrite <- E.
Qed.

Lemma substring_split (n m : nat) (s : string) :
  exists pre post, s = pre ++ substring n m s ++ post.
Proof.
  revert n. induction s as [|c s IH]; intros [|n].
  - destruct (substring_head m "") as [post E]. now exists "", post.
  - exists "", "". now destruct m.
  - destruct (substring_head m (String c s)) as [post E]. now exists "", post.
  - destruct (IH n) as (pre & post & E). exists (String c pre), post.
    cbn. now rewrite <- E.
Qed.

Lemma occurs_in_slice (v s : string) (a b : nat) :
  occurs_in v (py_slice s a b) -> occurs_in v s.
Proof.
  intros (p1 & p2 & E). unfold py_slice in E.
  destruct (substring_split a (b - a) s) as (pre & post & Es).
  exists (pre ++ p1), (p2 ++ post).
  rewrite Es at 1. rewrite E. now rewrite !string_append_assoc.
Qed.

Lemma py_in_slice_false (v s : string) (a b : nat) :
  py_in v s = false -> py_in v (py_slice s a b) = false.
Proof.
  intros H. destruct (py_in v (py_slice s a b)) eqn:E; [|reflexivity].
  apply py_in_occurs, occurs_in_slice, py_in_occurs in E. congruence.
Qed.

Lemma filter_none {A : Type} (f : A -> bool) (l : list A) :
  (forall x, f x = false) -> filter f l = [].
Proof.
  intros H. induction l as [|x l IH]; cbn; [reflexivity|]. now rewrite H.
Qed.

Lemma side_from_no_bracket (init : nat) (g : string) (starts : list nat) :
  py_in "[" g = false -> side_from init g starts = 0.
Proof.
  intros H. unfold side_from. rewrite filter_none; [reflexivity|].
  intros j. unfold open_bracket_only, window_from.
  now rewrite (py_in_slice_false _ _ _ _ H).
Qed.

Section Brackets.
Context {I : Imports}.

(** X3. When no selected glycan has an opening bracket, every occurrence is
    counted as main chain: the counter returns the number of matches and 0. *)
Theorem no_bracket_no_side
    (glycoletter taxonomy_filter taxonomy_value : string) :
  re_valid glycoletter = true ->
  (forall g, In g (glycan_values (filter_df taxonomy_filter taxonomy_value)) ->
             py_in "[" g = false) ->
  main_v_side_branch glycoletter taxonomy_filter taxonomy_value =
  Ok (list_sum (map (fun g => length (re_starts glycoletter g))
                    (glycan_values (filter_df taxonomy_filter taxonomy_value))),
      0).
Proof.
  intros V H. rewrite (main_v_side_branch_counts _ _ _ V).
  induction (glycan_values (filter_df taxonomy_filter taxonomy_value))
    as [|g rest IH]; [reflexivity|].
  rewrite !map_cons, !list_sum_cons.
  assert (Hg : py_in "[" g = false) by (apply H; now left).
  assert (IH' : Ok (list_sum (map (fun g => main_occurrences g (re_starts glycoletter g)) rest),
                    list_sum (map (fun g => side_occurrences g (re_starts glycoletter g)) rest)) =
                Ok (list_sum (map (fun g => length (re_starts glycoletter g)) rest), 0))
    by (apply IH; intros g' Hg'; apply H; now right).
  injection IH' as -> ->.
  pose proof (main_side_from_total 0 g (re_starts glycoletter g)) as T.
  unfold main_occurrences, side_occurrences.
  rewrite (side_from_no_bracket 0 g _ Hg) in *. rewrite Nat.add_0_r in T.
  now rewrite T.
Qed.

End Brackets.

Lemma no_bracket_no_side_witness :
  @re_valid small "Glc" = true /\
  @main_v_side_branch small "Glc" "Species" "nan" = Ok (2, 0).
Proof.
  split; [reflexivity|].
  apply (@no_bracket_no_side small "Glc" "Species" "nan" eq_refl).
  intros g [<-|[]]. reflexivity.
Defined.

(** ** A filter against the whole table *)

Lemma list_sum_mask_le {A : Type} (h : A -> nat) (mask : list bool) (l : list A) :
  list_sum (map h (mask_select mask l)) <= list_sum (map h l).
Proof.
  revert l. induction mask as [|b mask IH]; intros [|x l]; cbn [mask_select];
    try (cbn; lia).
  specialize (IH l). destruct b; rewrite ?map_cons, ?list_sum_cons; lia.
Qed.

Lemma Forall_concat_mask {A B : Type} (P : B -> Prop) (k : A -> list B)
    (mask : list bool) (l : list A) :
  Forall P (concat (map k l)) -> Forall P (concat (map k (mask_select mask l))).
Proof.
  revert l. induction mask as [|b mask IH]; intros [|x l]; cbn [mask_select];
    try (intros; now constructor).
  cbn [map concat]. intros H. apply Forall_app in H as [Hx Hl].
  destruct b; [|now apply IH].
  cbn [map concat]. apply Forall_app. split; [assumption | now apply IH].
Qed.

Lemma length_filter_concat {A B : Type} (P : B -> bool) (k : A -> list B)
    (l : list A) :
  length (filter P (concat (map k l))) =
  list_sum (map (fun x => length (filter P (k x))) l).
Proof.
  induction l as [|x l IH]; [reflexivity|].
  cbn [map concat]. now rewrite filter_app, length_app, list_sum_cons, IH.
Qed.

Section AgainstAll.
Context {I : Imports}.

Lemma filter_df_mask (taxonomy_filter taxonomy_value : string) :
  exists mask,
    filter_df taxonomy_filter taxonomy_value = mask_select mask df_species.
Proof.
  destruct (String.eqb_spec taxonomy_value "All") as [->|N].
  - exists (map (fun _ => true) df_species).
    rewrite mask_select_all; [reflexivity|]. now apply Forall_forall.
  - eexists. exact (filter_df_column _ _ N).
Qed.

Lemma pool_of_All (any_filter : string) :
  pool_of any_filter "All" =
  concat (map (fun r => link_find (glycan r)) df_species).
Proof. unfold pool_of, glycan_values. now rewrite filter_df_All, map_map. Qed.

Lemma pool_of_mask (taxonomy_filter taxonomy_value : string) :
  exists mask,
    pool_of taxonomy_filter taxonomy_value =
    concat (map (fun r => link_find (glycan r)) (mask_select mask df_species)).
Proof.
  destruct (filter_df_mask taxonomy_filter taxonomy_value) as [mask E].
  exists mask. unfold pool_of, glycan_values. now rewrite E, map_map.
Qed.

Lemma pool_of_triples (taxonomy_filter taxonomy_value any_filter : string) :
  Forall bond_triple (pool_of any_filter "All") ->
  Forall bond_triple (pool_of taxonomy_filter taxonomy_value).
Proof.
  rewrite pool_of_All.
  destruct (pool_of_mask taxonomy_filter taxonomy_value) as [mask ->].
  apply Forall_concat_mask.
Qed.

Lemma tally_filter_le (glycoletter : string) (key part : nat)
    (taxonomy_filter taxonomy_value any_filter p : string) :
  tally glycoletter key part (pool_of taxonomy_filter taxonomy_value) p <=
  tally glycoletter key part (pool_of any_filter "All") p.
Proof.
  unfold tally. rewrite pool_of_All.
  destruct (pool_of_mask taxonomy_filter taxonomy_value) as [mask ->].
  rewrite !length_filter_concat. apply list_sum_mask_le.
Qed.

(** What a recognized mode returns, entry by entry. *)
Lemma characterize_context_entries
    (glycoletter mode taxonomy_filter taxonomy_value : string)
    (key part : nat) (text : string) :
  mode_table mode = Some (key, part, text) ->
  Forall bond_triple (pool_of taxonomy_filter taxonomy_value) ->
  exists lab cou_k cou_v,
    characterize_context glycoletter mode taxonomy_filter taxonomy_value =
      Ok (lab, cou_k, cou_v) /\
    forall p n,
      In (p, n) (combine cou_k cou_v) <->
      n = tally glycoletter key part (pool_of taxonomy_filter taxonomy_value) p /\
      10 < n.
Proof.
  intros M T. eexists _, _, _. split.
  - exact (characterize_context_recognized _ _ _ _ _ _ _ M T).
  - cbv zeta. intros p n.
    rewrite combine_fst_snd, frequent_entry, count_occ_partner_pool.
    split; [tauto|]. intros [-> Hn]. repeat split; [|assumption].
    apply (count_occ_In string_dec). rewrite count_occ_partner_pool. lia.
Qed.

(** X4. A taxonomy filter never raises a count: with a pattern that
    compiles, the two numbers returned under a filter are at most the two
    numbers returned under "All". *)
Theorem filter_never_raises_counts
    (glycoletter taxonomy_filter taxonomy_value any_filter : string) :
  re_valid glycoletter = true ->
  exists main side main_all side_all,
    main_v_side_branch glycoletter taxonomy_filter taxonomy_value =
      Ok (main, side) /\
    main_v_side_branch glycoletter any_filter "All" = Ok (main_all, side_all) /\
    main <= main_all /\ side <= side_all.
Proof.
  intros V. eexists _, _, _, _.
  split; [exact (main_v_side_branch_counts _ _ _ V)|].
  split; [exact (main_v_side_branch_counts _ _ _ V)|].
  rewrite filter_df_All.
  destruct (filter_df_mask taxonomy_filter taxonomy_value) as [mask ->].
  unfold glycan_values. rewrite !map_map. split; apply list_sum_mask_le.
Qed.

(** X5. With triples in the pool of the whole table and a recognized mode,
    a partner returned under a taxonomy filter is also returned under "All",
    with a count at least as large. *)
Theorem filtered_partner_is_partner_under_all
    (glycoletter mode taxonomy_filter taxonomy_value any_filter : string)
    (key part : nat) (text : string) :
  mode_table mode = Some (key, part, text) ->
  Forall bond_triple (pool_of any_filter "All") ->
  exists lab cou_k cou_v lab_all cou_k_all cou_v_all,
    characterize_context glycoletter mode taxonomy_filter taxonomy_value =
      Ok (lab, cou_k, cou_v) /\
    characterize_context glycoletter mode any_filter "All" =
      Ok (lab_all, cou_k_all, cou_v_all) /\
    forall p n,
      In (p, n) (combine cou_k cou_v) ->
      exists n_all, In (p, n_all) (combine cou_k_all cou_v_all) /\ n <= n_all.
Proof.
  intros M T.
  destruct (characterize_context_entries glycoletter _ taxonomy_filter
              taxonomy_value _ _ _ M (pool_of_triples _ _ _ T))
    as (lab & cou_k & cou_v & E & H).
  destruct (characterize_context_entries glycoletter _ any_filter "All"
              _ _ _ M T)
    as (lab_all & cou_k_all & cou_v_all & E_all & H_all).
  exists lab, cou_k, cou_v, lab_all, cou_k_all, cou_v_all.
  split; [exact E|]. split; [exact E_all|].
  intros p n Hp. apply H in Hp as [-> Hn].
  pose proof (tally_filter_le glycoletter key part taxonomy_filter
                taxonomy_value any_filter p) as L.
  eexists. split; [|exact L]. apply H_all. split; [reflexivity | lia].
Qed.

End AgainstAll.

Lemma filter_never_raises_counts_witness :
  @re_valid small "Man" = true /\
  exists main side main_all side_all,
    @main_v_side_branch small "Man" "Kingdom" "Animalia" = Ok (main, side) /\
    @main_v_side_branch small "Man" "Kingdom" "All" = Ok (main_all, side_all) /\
    main <= main_all /\ side <= side_all.
Proof.
  split; [reflexivity|].
  exact (@filter_never_raises_counts small "Man" "Kingdom" "Animalia" "Kingdom"
           eq_refl).
Defined.

Lemma filtered_partner_is_partner_under_all_witness :
  Forall bond_triple (@pool_of demo "Kingdom" "All") /\
  exists lab cou_k cou_v lab_all cou_k_all cou_v_all,
    @characterize_context demo "b1-4" "bond" "Species" "Homo" =
      Ok (lab, cou_k, cou_v) /\
    @characterize_context demo "b1-4" "bond" "Kingdom" "All" =
      Ok (lab_all, cou_k_all, cou_v_all) /\
    forall p n,
      In (p, n) (combine cou_k cou_v) ->
      exists n_all, In (p, n_all) (combine cou_k_all cou_v_all) /\ n <= n_all.
Proof.
  assert (T : Forall bond_triple (@pool_of demo "Kingdom" "All"))
    by (vm_compute; repeat constructor).
  split; [exact T|].
  exact (@filtered_partner_is_partner_under_all demo "b1-4" "bond" "Species"
           "Homo" "Kingdom" 1 0 "Observed monosaccharides making bond "
           eq_refl T).
Defined.

(** ** How much is returned *)

Lemma counter_add_total (x : string) (c : list (string * nat)) :
  list_sum (map snd (counter_add x c)) = S (list_sum (map snd c)).
Proof.
  induction c as [|[y n] c IH]; cbn [counter_add]; [reflexivity|].
  destruct (y =? x); rewrite !map_cons, !list_sum_cons; cbn [snd].
  - reflexivity.
  - rewrite IH. lia.
Qed.

(** The counts of a [Counter] add up to the number of elements counted. *)
Lemma Counter_total (l : list string) :
  list_sum (map snd (Counter l)) = length l.
Proof.
  induction l as [|x l IH] using rev_ind; [reflexivity|].
  rewrite Counter_snoc, counter_add_total, IH, length_app. cbn. lia.
Qed.

Lemma list_sum_filter_le (f : string * nat -> bool) (l : list (string * nat)) :
  list_sum (map snd (filter f l)) <= list_sum (map snd l).
Proof.
  induction l as [|x l IH]; cbn [filter]; [reflexivity|].
  destruct (f x); rewrite ?map_cons, ?list_sum_cons; lia.
Qed.

Lemma frequent_total (pool : list string) :
  list_sum (map snd (frequent pool)) <= length pool /\
  11 * length (frequent pool) <= list_sum (map snd (frequent pool)).
Proof.
  split.
  - unfold frequent. rewrite list_sum_filter_le.
    rewrite (Permutation_list_sum
               (Permutation_map snd (most_common_perm (Counter pool)))).
    now rewrite Counter_total.
  - unfold frequent.
    induction (most_common (Counter pool)) as [|x l IH]; cbn [filter];
      [reflexivity|].
    destruct (Nat.ltb_spec 10 (snd x)); [|exact IH].
    rewrite map_cons, list_sum_cons. cbn [length]. lia.
Qed.

Section Totals.
Context {I : Imports}.

(** X6. Under a recognized mode and with triples in the pool, the counts
    returned add up to at most the number of tokens whose key field is the
    glycoletter, and to at least 11 for each partner returned. *)
Theorem returned_counts_bounded
    (glycoletter mode taxonomy_filter taxonomy_value : string)
    (key part : nat) (text : string) :
  mode_table mode = Some (key, part, text) ->
  Forall bond_triple (pool_of taxonomy_filter taxonomy_value) ->
  exists lab cou_k cou_v,
    characterize_context glycoletter mode taxonomy_filter taxonomy_value =
      Ok (lab, cou_k, cou_v) /\
    list_sum cou_v <=
      length (filter (fun t => field key t =? glycoletter)
                     (pool_of taxonomy_filter taxonomy_value)) /\
    11 * length cou_k <= list_sum cou_v.
Proof.
  intros M T. eexists _, _, _. split.
  - exact (characterize_context_recognized _ _ _ _ _ _ _ M T).
  - cbv zeta.
    destruct (frequent_total (partner_pool glycoletter key part
                                (pool_of taxonomy_filter taxonomy_value)))
      as [Hsum Hlen].
    unfold partner_pool in Hsum at 2. rewrite length_map in Hsum.
    split; [exact Hsum|]. now rewrite length_map.
Qed.

End Totals.

Lemma returned_counts_bounded_witness :
  exists lab cou_k cou_v,
    @characterize_context demo "Gal" "sugarbond" "Kingdom" "All" =
      Ok (lab, cou_k, cou_v) /\
    list_sum cou_v <=
      length (filter (fun t => field 0 t =? "Gal")
                     (@pool_of demo "Kingdom" "All")) /\
    11 * length cou_k <= list_sum cou_v.
Proof.
  apply (@returned_counts_bounded demo "Gal" "sugarbond" "Kingdom" "All" 0 1
           "Observed bonds made by " eq_refl).
  vm_compute; repeat constructor.
Defined.

(** ** Tokens of the form sugar*bond*sugar *)

Lemma py_in_star_cons (c : ascii) (a : string) :
  py_in "*" (String c a) = false ->
  Ascii.eqb c "*" = false /\ py_in "*" a = false.
Proof.
  cbn [py_in]. intros H. apply orb_false_iff in H as [P H]. split; [|exact H].
  destruct (Ascii.eqb_spec c "*"%char) as [->|]; [|reflexivity].
  cbn in P. destruct a; discriminate P.
Qed.

Lemma split_star_no_star (a : string) :
  py_in "*" a = false -> split_star a = [a].
Proof.
  induction a as [|c a IH]; [reflexivity|]. intros H.
  apply py_in_star_cons in H as [C H]. cbn [split_star].
  now rewrite C, (IH H).
Qed.

Lemma split_star_field (a rest : string) :
  py_in "*" a = false ->
  split_star (a ++ String "*" rest) = a :: split_star rest.
Proof.
  induction a as [|c a IH]; [reflexivity|]. intros H.
  apply py_in_star_cons in H as [C H].
  change (String c a ++ String "*" rest) with (String c (a ++ String "*" rest)).
  cbn [split_star]. now rewrite C, (IH H).
Qed.

(** X7. A token made of three texts without "*", joined by "*", splits into
    these three texts: it is a triple whose fields 0, 1 and 2 are the
    texts. *)
Theorem split_star_triple (a b c : string) :
  py_in "*" a = false -> py_in "*" b = false -> py_in "*" c = false ->
  split_star (a ++ "*" ++ b ++ "*" ++ c) = [a; b; c] /\
  bond_triple (a ++ "*" ++ b ++ "*" ++ c).
Proof.
  intros Ha Hb Hc.
  assert (E : split_star (a ++ "*" ++ b ++ "*" ++ c) = [a; b; c]).
  { change ("*" ++ b ++ "*" ++ c) with (String "*" (b ++ String "*" c)).
    now rewrite (split_star_field _ _ Ha), (split_star_field _ _ Hb),
      (split_star_no_star _ Hc). }
  split; [exact E|]. unfold bond_triple. rewrite E. cbn. lia.
Qed.

Lemma split_star_triple_witness :
  split_star ("Gal" ++ "*" ++ "b1-4" ++ "*" ++ "GlcNAc") =
    ["Gal"; "b1-4"; "GlcNAc"] /\
  bond_triple ("Gal" ++ "*" ++ "b1-4" ++ "*" ++ "GlcNAc").
Proof.
  apply split_star_triple; reflexivity.
Defined.

(** ** Values that select more than they say *)

Lemma In_mask_select {A : Type} (p : A -> bool) (l : list A) (x : A) :
  In x (mask_select (map p l) l) <-> In x l /\ p x = true.
Proof.
  induction l as [|y l IH]; cbn [map mask_select]; [cbn; tauto|].
  destruct (p y) eqn:E; cbn [In]; rewrite IH; intuition (subst; congruence).
Qed.

Section LooseValues.
Context {I : Imports}.

Lemma matches_every_record_empty (taxonomy_filter : string) :
  matches_every_record taxonomy_filter "".
Proof.
  apply Forall_forall. intros r _. apply py_in_occurs.
  now exists "", (py_str (taxonomy_column taxonomy_filter r)).
Qed.

(** X8. The empty value selects every record, as "All" does: the selected
    glycans are those of the whole table and the counter returns what it
    returns under "All". *)
Theorem empty_value_selects_everything
    (glycoletter taxonomy_filter any_filter : string) :
  glycan_values (filter_df taxonomy_filter "") = map glycan df_species /\
  main_v_side_branch glycoletter taxonomy_filter "" =
  main_v_side_branch glycoletter any_filter "All".
Proof.
  pose proof (filter_df_matches_every _ _
                (matches_every_record_empty taxonomy_filter)) as E.
  split.
  - now rewrite E.
  - unfold main_v_side_branch. now rewrite E, filter_df_All.
Qed.

(** X9. A record whose cell is missing (NaN) is selected by a value other
    than "All" exactly when the value is part of the text "nan". *)
Theorem missing_cell_matches_nan
    (taxonomy_filter taxonomy_value : string) (r : row) :
  taxonomy_value <> "All" ->
  In r df_species ->
  (if taxonomy_filter =? "Kingdom" then kingdom r else species r) = NaN ->
  (In r (filter_df taxonomy_filter taxonomy_value) <->
   occurs_in taxonomy_value "nan").
Proof.
  intros N Hr C. rewrite (filter_df_column _ _ N), In_mask_select.
  unfold taxonomy_column. rewrite C. cbn [py_str]. rewrite py_in_occurs. tauto.
Qed.

End LooseValues.

Lemma missing_cell_matches_nan_witness :
  In unplaced (@filter_df small "Species" "an") <-> occurs_in "an" "nan".
Proof.
  apply (@missing_cell_matches_nan small "Species" "an" unplaced).
  - discriminate.
  - right; right; left; reflexivity.
  - reflexivity.
Defined.

(** ** The order of the table *)

Lemma mask_select_filter {A : Type} (p : A -> bool) (l : list A) :
  mask_select (map p l) l = filter p l.
Proof.
  induction l as [|x l IH]; cbn [map mask_select filter]; [reflexivity|].
  now rewrite IH.
Qed.

Lemma Permutation_filter_same {A : Type} (p : A -> bool) (l l' : list A) :
  Permutation l l' -> Permutation (filter p l) (filter p l').
Proof.
  induction 1 as [|x l l' _ IH|x y l|l l' l'' _ IH1 _ IH2]; cbn [filter].
  - constructor.
  - destruct (p x); [now constructor | exact IH].
  - destruct (p x), (p y); try reflexivity. apply perm_swap.
  - now transitivity (filter p l').
Qed.

Lemma filter_df_filter {I : Imports} (taxonomy_filter taxonomy_value : string) :
  filter_df taxonomy_filter taxonomy_value =
  filter (fun r => (taxonomy_value =? "All") ||
                   py_in taxonomy_value
                         (py_str (taxonomy_column taxonomy_filter r)))
         df_species.
Proof.
  destruct (String.eqb_spec taxonomy_value "All") as [->|N].
  - rewrite filter_df_All. cbn [orb]. symmetry. apply forallb_filter_id.
    now apply forallb_forall.
  - rewrite (filter_df_column _ _ N). cbn [orb]. apply mask_select_filter.
Qed.

Lemma filter_df_with_table (I : Imports) (rows rows' : list row)
    (taxonomy_filter taxonomy_value : string) :
  Permutation rows rows' ->
  Permutation (@filter_df (with_table I rows) taxonomy_filter taxonomy_value)
              (@filter_df (with_table I rows') taxonomy_filter taxonomy_value).
Proof.
  intros P. rewrite !filter_df_filter. now apply Permutation_filter_same.
Qed.

(** X10. The order of the records in the table does not matter to the
    counter: on two tables with the same records it returns the same pair,
    or raises the same error. *)
Theorem counter_ignores_table_order (I : Imports) (rows rows' : list row)
    (glycoletter taxonomy_filter taxonomy_value : string) :
  Permutation rows rows' ->
  @main_v_side_branch (with_table I rows) glycoletter taxonomy_filter
                      taxonomy_value =
  @main_v_side_branch (with_table I rows') glycoletter taxonomy_filter
                      taxonomy_value.
Proof.
  intros P.
  pose proof (Permutation_map glycan
                (filter_df_with_table I _ _ taxonomy_filter taxonomy_value P))
    as G.
  destruct (@re_valid I glycoletter) eqn:V.
  - rewrite (@main_v_side_branch_counts (with_table I rows) _ _ _ V).
    rewrite (@main_v_side_branch_counts (with_table I rows') _ _ _ V).
    unfold glycan_values.
    f_equal. f_equal; apply Permutation_list_sum, Permutation_map, G.
  - unfold main_v_side_branch, glycan_values. cbv zeta.
    destruct (map glycan (@filter_df (with_table I rows) _ _)) as [|g l],
             (map glycan (@filter_df (with_table I rows') _ _)) as [|g' l'].
    + reflexivity.
    + now apply Permutation_nil_cons in G.
    + apply Permutation_sym in G. now apply Permutation_nil_cons in G.
    + now rewrite !(@outer_loop_invalid (with_table I _) _ _ _ V).
Qed.

Lemma counter_ignores_table_order_witness :
  Permutation [lewis_x; mannan; unplaced] [mannan; unplaced; lewis_x] /\
  @main_v_side_branch (with_table small [lewis_x; mannan; unplaced])
                      "Man" "Kingdom" "All" =
  @main_v_side_branch (with_table small [mannan; unplaced; lewis_x])
                      "Man" "Kingdom" "All".
Proof.
  assert (P : Permutation [lewis_x; mannan; unplaced] [mannan; unplaced; lewis_x])
    by apply (Permutation_cons_append [mannan; unplaced] lewis_x).
  split; [exact P|].
  exact (counter_ignores_table_order small _ _ "Man" "Kingdom" "All" P).
Defined.

Lemma Permutation_concat_map {A B : Type} (k : A -> list B) (l l' : list A) :
  Permutation l l' -> Permutation (concat (map k l)) (concat (map k l')).
Proof.
  intros P. rewrite <- !flat_map_concat_map. now apply Permutation_flat_map.
Qed.

Lemma pool_of_with_table (I : Imports) (rows rows' : list row)
    (taxonomy_filter taxonomy_value : string) :
  Permutation rows rows' ->
  Permutation (@pool_of (with_table I rows) taxonomy_filter taxonomy_value)
              (@pool_of (with_table I rows') taxonomy_filter taxonomy_value).
Proof.
  intros P. unfold pool_of, glycan_values.
  apply Permutation_concat_map, Permutation_map.
  now apply filter_df_with_table.
Qed.

Lemma frequent_Permutation (pool pool' : list string) :
  Permutation pool pool' -> Permutation (frequent pool) (frequent pool').
Proof.
  intros P. apply NoDup_Permutation.
  - apply (NoDup_map_inv fst), frequent_keys_NoDup.
  - apply (NoDup_map_inv fst), frequent_keys_NoDup.
  - intros [p n]. rewrite !frequent_entry.
    rewrite (proj1 (Permutation_count_occ string_dec pool pool') P p).
    split; intros (H & E & L); repeat split; try assumption.
    + now apply (Permutation_in _ P).
    + now apply (Permutation_in _ (Permutation_sym P)).
Qed.

(** X11. With a recognized mode and triples in the pool, the order of the
    records in the table matters to the characterizer only through the
    order of its result: on two tables with the same records it returns the
    same label and the same partners with the same counts, up to order. *)
Theorem characterizer_ignores_table_order (I : Imports) (rows rows' : list row)
    (glycoletter mode taxonomy_filter taxonomy_value : string)
    (key part : nat) (text : string) :
  Permutation rows rows' ->
  mode_table mode = Some (key, part, text) ->
  Forall bond_triple
         (@pool_of (with_table I rows) taxonomy_filter taxonomy_value) ->
  exists lab cou_k cou_v cou_k' cou_v',
    @characterize_context (with_table I rows) glycoletter mode
        taxonomy_filter taxonomy_value = Ok (lab, cou_k, cou_v) /\
    @characterize_context (with_table I rows') glycoletter mode
        taxonomy_filter taxonomy_value = Ok (lab, cou_k', cou_v') /\
    Permutation (combine cou_k cou_v) (combine cou_k' cou_v').
Proof.
  intros P M T.
  pose proof (pool_of_with_table I _ _ taxonomy_filter taxonomy_value P) as PP.
  assert (T' : Forall bond_triple
                 (@pool_of (with_table I rows') taxonomy_filter taxonomy_value))
    by exact (Permutation_Forall PP T).
  eexists _, _, _, _, _.
  split; [exact (@characterize_context_recognized (with_table I rows)
                   _ _ _ _ _ _ _ M T)|].
  split; [exact (@characterize_context_recognized (with_table I rows')
                   _ _ _ _ _ _ _ M T')|].
  cbv zeta. rewrite !combine_fst_snd. apply frequent_Permutation.
  unfold partner_pool. now apply Permutation_map, Permutation_filter_same.
Qed.

(** The bond a1-3 is made 11 times by "Man" and 11 times by "Fuc": the
    table order decides which comes first, and nothing else. *)
Lemma characterizer_ignores_table_order_witness :
  Permutation (repeat mannan 11 ++ repeat lewis_x 11)%list
              (repeat lewis_x 11 ++ repeat mannan 11)%list /\
  exists lab,
    @characterize_context
        (with_table small (repeat mannan 11 ++ repeat lewis_x 11)%list)
        "a1-3" "bond" "Kingdom" "All" = Ok (lab, ["Man"; "Fuc"], [11; 11]) /\
    @characterize_context
        (with_table small (repeat lewis_x 11 ++ repeat mannan 11)%list)
        "a1-3" "bond" "Kingdom" "All" = Ok (lab, ["Fuc"; "Man"], [11; 11]) /\
    Permutation (combine ["Man"; "Fuc"] [11; 11])
                (combine ["Fuc"; "Man"] [11; 11]).
Proof.
  assert (P : Permutation (repeat mannan 11 ++ repeat lewis_x 11)%list
                          (repeat lewis_x 11 ++ repeat mannan 11)%list)
    by apply Permutation_app_comm.
  split; [exact P|].
  destruct (characterizer_ignores_table_order small _ _ "a1-3" "bond" "Kingdom"
              "All" 1 0 "Observed monosaccharides making bond " P eq_refl)
    as (lab & cou_k & cou_v & cou_k' & cou_v' & E & E' & H).
  - vm_compute; repeat constructor.
  - vm_compute in E. injection E as <- <- <-.
    vm_compute in E'. injection E' as <- <-.
    eexists. split; [reflexivity|]. split; [reflexivity | exact H].
Defined.

(** ** Side occurrences and opening brackets *)

Lemma count_char_py_in (s : string) :
  py_in "[" s = true -> 1 <= count_char "[" s.
Proof.
  induction s as [|d s IH]; cbn [py_in count_char]; [discriminate|].
  destruct (Ascii.eqb_spec d "["%char) as [->|N]; [lia|].
  intros H. apply orb_true_iff in H as [H|H]; [|specialize (IH H); lia].
  cbn [prefix] in H.
  destruct (ascii_dec "[" d) as [E|_]; [now elim N | discriminate].
Qed.

Lemma count_char_skip (c : ascii) (s : string) :
  forall a b, a <= b ->
    count_char c (string_skip a s) =
    count_char c (py_slice s a b) + count_char c (string_skip b s).
Proof.
  unfold py_slice.
  induction s as [|d s IH]; intros [|a] [|b] L; try lia; cbn; try reflexivity.
  - specialize (IH 0 b (Nat.le_0_l b)). rewrite Nat.sub_0_r in IH.
    cbn in IH. destruct s; cbn in *; lia.
  - apply IH. lia.
Qed.

Lemma side_from_brackets (g : string) (starts : list nat) :
  forall init, StronglySorted le (init :: starts) ->
    side_from init g starts <= count_char "[" (string_skip init g).
Proof.
  induction starts as [|i rest IH]; intros init S.
  - unfold side_from. cbn. lia.
  - apply StronglySorted_inv in S as [S F].
    assert (L : init <= i) by now inversion F.
    rewrite side_from_cons, (count_char_skip _ g init i L).
    specialize (IH i S).
    destruct (open_bracket_only (py_slice g init i)) eqn:E; [|lia].
    unfold open_bracket_only in E. apply andb_true_iff in E as [E _].
    apply count_char_py_in in E. lia.
Qed.

Section Brackets2.
Context {I : Imports}.

(** X12. When the matcher reports the starts of its matches in increasing
    order, the number of side-branch occurrences returned is at most the
    number of opening brackets in the selected glycans. *)
Theorem side_at_most_opening_brackets
    (glycoletter taxonomy_filter taxonomy_value : string) :
  re_valid glycoletter = true ->
  (forall g, In g (glycan_values (filter_df taxonomy_filter taxonomy_value)) ->
             StronglySorted le (re_starts glycoletter g)) ->
  exists main side,
    main_v_side_branch glycoletter taxonomy_filter taxonomy_value =
      Ok (main, side) /\
    side <= list_sum (map (count_char "[")
                          (glycan_values (filter_df taxonomy_filter taxonomy_value))).
Proof.
  intros V S. eexists _, _.
  split; [exact (main_v_side_branch_counts _ _ _ V)|].
  induction (glycan_values (filter_df taxonomy_filter taxonomy_value))
    as [|g rest IH]; [reflexivity|].
  rewrite !map_cons, !list_sum_cons.
  apply Nat.add_le_mono.
  - apply (side_from_brackets g _ 0). constructor.
    + apply S. now left.
    + apply Forall_forall. intros; lia.
  - apply IH. intros g' Hg'. apply S. now right.
Qed.

End Brackets2.

Lemma side_at_most_opening_brackets_witness :
  exists main side,
    @main_v_side_branch small "Man" "Kingdom" "Fungi" = Ok (main, side) /\
    side <= list_sum (map (count_char "[")
                          (glycan_values (@filter_df small "Kingdom" "Fungi"))).
Proof.
  apply (@side_at_most_opening_brackets small "Man" "Kingdom" "Fungi" eq_refl).
  intros g [<-|[]]. vm_compute. repeat constructor.
Defined.

(** ** Two tables put together *)

(** X13. With a pattern that compiles, the counter is additive over the
    table: on one table followed by another it returns the sums of what it
    returns on each. *)
Theorem counter_adds_over_tables (I : Imports) (rows rows' : list row)
    (glycoletter taxonomy_filter taxonomy_value : string) :
  @re_valid I glycoletter = true ->
  exists main side main' side',
    @main_v_side_branch (with_table I rows) glycoletter taxonomy_filter
                        taxonomy_value = Ok (main, side) /\
    @main_v_side_branch (with_table I rows') glycoletter taxonomy_filter
                        taxonomy_value = Ok (main', side') /\
    @main_v_side_branch (with_table I (rows ++ rows')%list) glycoletter
                        taxonomy_filter taxonomy_value =
      Ok (main + main', side + side').
Proof.
  intros V. eexists _, _, _, _.
  split; [exact (@main_v_side_branch_counts (with_table I rows) _ _ _ V)|].
  split; [exact (@main_v_side_branch_counts (with_table I rows') _ _ _ V)|].
  rewrite (@main_v_side_branch_counts (with_table I (rows ++ rows')%list) _ _ _ V).
  rewrite !filter_df_filter. cbn [df_species with_table].
  unfold glycan_values. now rewrite filter_app, !map_app, !list_sum_app.
Qed.

Lemma counter_adds_over_tables_witness :
  @re_valid small "Man" = true /\
  exists main side main' side',
    @main_v_side_branch (with_table small [lewis_x]) "Man" "Kingdom" "All" =
      Ok (main, side) /\
    @main_v_side_branch (with_table small [mannan; mannan]) "Man" "Kingdom" "All" =
      Ok (main', side') /\
    @main_v_side_branch (with_table small ([lewis_x] ++ [mannan; mannan])%list)
                        "Man" "Kingdom" "All" =
      Ok (main + main', side + side').
Proof.
  split; [reflexivity|].
  exact (counter_adds_over_tables small [lewis_x] [mannan; mannan]
           "Man" "Kingdom" "All" eq_refl).
Defined.
